(** * fact_llm: retrieval and verdict aggregation engine

    A shallow embedding of [src/vector_store.py], [src/retriever.py],
    [src/claim_extractor.py], [src/llm_client.py] and [src/fact_checker.py],
    followed by the properties of the engine that the specification states.

    Python exceptions are values of [result]; objects that are mutated
    ([VectorStore], the file system) are passed explicitly and returned
    together with the outcome of the call. Floating-point numbers are
    rationals: every finite float is one, and the code only compares them.
    The floating-point kernels of the external libraries (normalisation,
    inner product) are parameters of the development ([FloatKernel]). *)

From Stdlib Require Import ZArith QArith Qabs Lia Ascii.
From stdpp Require Import base list sorting strings pretty gmap fin_maps.

Local Open Scope string_scope.
Local Open Scope list_scope.
Local Open Scope Z_scope.

(** ** Python prelude *)

Module Py.

Inductive exn_class :=
| ValueError | FileNotFoundError | KeyError | IndexError | AssertionError
| TypeError | RuntimeError | JSONDecodeError | RequestException.

(** An exception: its class and [str(e)]. *)
Record exn := Exn { exn_type : exn_class; exn_msg : string }.

Inductive result (A : Type) :=
| Ok (a : A)
| Raise (e : exn).
Arguments Ok {A} a.
Arguments Raise {A} e.

Definition bind {A B} (r : result A) (f : A -> result B) : result B :=
  match r with
  | Ok a => f a
  | Raise e => Raise e
  end.

(** A [for] loop that builds a list with [append]. *)
Fixpoint for_each {A B} (f : A -> result B) (l : list A) : result (list B) :=
  match l with
  | [] => Ok []
  | x :: l' =>
      match f x with
      | Ok y =>
          match for_each f l' with
          | Ok ys => Ok (y :: ys)
          | Raise e => Raise e
          end
      | Raise e => Raise e
      end
  end.

(** Python values that occur in metadata records, candidates and
    verification results. Dictionaries keep insertion order. *)
#[warnings="-register-all"]
Inductive pyval :=
| PyNone
| PyBool (b : bool)
| PyInt (z : Z)
| PyFloat (q : Q)
| PyStr (s : string)
| PyList (l : list pyval)
| PyDict (d : list (string * pyval))
| NpInt (z : Z)
| NpFloat (q : Q)
| NpArray (a : list Q).

Definition pydict := list (string * pyval).

(** [d.get(key)] *)
Fixpoint dict_get (key : string) (d : pydict) : option pyval :=
  match d with
  | [] => None
  | (k, v) :: d' => if String.eqb key k then Some v else dict_get key d'
  end.

(** [d.get(key, default)] *)
Definition dict_get_default (key : string) (default : pyval) (d : pydict) : pyval :=
  match dict_get key d with
  | Some v => v
  | None => default
  end.

(** [d[key]] *)
Definition dict_getitem (key : string) (d : pydict) : result pyval :=
  match dict_get key d with
  | Some v => Ok v
  | None => Raise (Exn KeyError key)
  end.

(** [key in d] *)
Definition dict_contains (key : string) (d : pydict) : bool :=
  match dict_get key d with Some _ => true | None => false end.

(** [d[key] = v]: an existing key keeps its position. *)
Fixpoint dict_set (key : string) (v : pyval) (d : pydict) : pydict :=
  match d with
  | [] => [(key, v)]
  | (k, w) :: d' =>
      if String.eqb key k then (k, v) :: d' else (k, w) :: dict_set key v d'
  end.

(** [l[i]] with Python's negative indices. *)
Definition getitem {A} (l : list A) (i : Z) : result A :=
  let n := Z.of_nat (List.length l) in
  let j := if i <? 0 then n + i else i in
  if (j <? 0) || (n <=? j) then Raise (Exn IndexError "list index out of range")
  else match l !! Z.to_nat j with
       | Some x => Ok x
       | None => Raise (Exn IndexError "list index out of range")
       end.

(** [l[:n]] with Python's negative bound. *)
Definition slice_to {A} (l : list A) (n : Z) : list A :=
  if n <? 0 then firstn (Z.to_nat (Z.of_nat (List.length l) + n)) l
  else firstn (Z.to_nat n) l.

(** [not l] for a list. *)
Definition is_empty {A} (l : list A) : bool :=
  match l with [] => true | _ => false end.

Definition Qlt_bool (x y : Q) : bool := negb (Qle_bool y x).

(** [s.find(c)] for a one-character [c]: the first position, or [-1]. *)
Fixpoint str_find (c : Ascii.ascii) (s : string) : Z :=
  match s with
  | EmptyString => -1
  | String a s' =>
      if Ascii.eqb a c then 0
      else let r := str_find c s' in if r <? 0 then -1 else r + 1
  end.

(** [s.rfind(c)] for a one-character [c]: the last position, or [-1]. *)
Fixpoint str_rfind (c : Ascii.ascii) (s : string) : Z :=
  match s with
  | EmptyString => -1
  | String a s' =>
      let r := str_rfind c s' in
      if 0 <=? r then r + 1
      else if Ascii.eqb a c then 0 else -1
  end.

(** [s[i:j]] for non-negative bounds. *)
Definition str_slice (s : string) (i j : Z) : string :=
  String.substring (Z.to_nat i)
    (Z.to_nat (Z.min j (Z.of_nat (String.length s))) - Z.to_nat i)%nat s.

End Py.
Import Py.

Notation "x <- r ;; k" := (Py.bind r (fun x => k))
  (at level 100, r at next level, right associativity).

(** ** Vectors and the floating-point kernels *)

Definition vector := list Q.

(** A two-dimensional [numpy] array: [shape = (len(rows), shape1)]. *)
Record ndarray := { shape1 : nat; rows : list vector }.

Definition ndarray_wf (a : ndarray) : Prop :=
  Forall (fun v => List.length v = shape1 a) (rows a).

(** The float32 arithmetic of the external libraries: the reciprocal of
    the L2 norm of a row ([None] for a row of norm zero), the product of
    two floats and the inner product of two rows. The code never looks
    inside them; it only compares the numbers they return. *)
Class FloatKernel := {
  inv_norm_L2 : vector -> option Q;
  fmul : Q -> Q -> Q;
  fvec_inner_product : vector -> vector -> Q
}.

(** [faiss.normalize_L2] on one row: every entry is multiplied by the
    reciprocal of the norm; a row of norm zero is left as it is. *)
Definition normalize_L2 `{FloatKernel} (v : vector) : vector :=
  match inv_norm_L2 v with
  | Some s => map (fmul s) v
  | None => v
  end.

(** ** faiss.IndexFlatIP *)

Module Faiss.

Record IndexFlatIP := { d : nat; xb : list vector }.

Definition ntotal (ix : IndexFlatIP) : nat := List.length (xb ix).

(** [faiss.IndexFlatIP(d)] *)
Definition new (dim : nat) : IndexFlatIP := {| d := dim; xb := [] |}.

(** [index.add(x)]: rows are appended, the next row gets the next label. *)
Definition add (ix : IndexFlatIP) (x : list vector) : IndexFlatIP :=
  {| d := d ix; xb := xb ix ++ x |}.

(** One entry of the result arrays [(D, I)]: similarity and label. *)
Abbreviation hit := (Q * Z)%type.

(** The similarity reported in the slots that have no neighbour: the lowest
    finite float32, with label [-1]. *)
Definition FLT_LOWEST : Q := (- 340282346638528859811704183484516925440 # 1)%Q.
Definition no_hit : hit := (FLT_LOWEST, -1).

(** [ranks_before h1 h2]: [h1] is reported no later than [h2]; higher
    similarity first, equal similarities by lower label. *)
Definition ranks_before (h1 h2 : hit) : bool :=
  Qlt_bool (fst h2) (fst h1) || (Qeq_bool (fst h1) (fst h2) && (snd h1 <=? snd h2)).

(** [h1] is ranked no later than [h2]. *)
Definition hit_le (h1 h2 : hit) : Prop :=
  (h2.1 < h1.1)%Q \/ (h1.1 == h2.1 /\ h1.2 <= h2.2).

(** [h1] is ranked strictly before [h2]. *)
Definition hit_lt (h1 h2 : hit) : Prop :=
  (h2.1 < h1.1)%Q \/ (h1.1 == h2.1 /\ h1.2 < h2.2).

Fixpoint insert_ranked (h : hit) (l : list hit) : list hit :=
  match l with
  | [] => [h]
  | h' :: l' => if ranks_before h h' then h :: h' :: l' else h' :: insert_ranked h l'
  end.

Definition rank (l : list hit) : list hit := foldr insert_ranked [] l.

(** Labels are positions in insertion order. *)
Definition labels (n : nat) : list Z := Z.of_nat <$> seq 0 n.

Definition scores `{FloatKernel} (ix : IndexFlatIP) (x : vector) : list hit :=
  zip (fvec_inner_product x <$> xb ix) (labels (ntotal ix)).

(** Modelled from the spec: [faiss.IndexFlatIP.search] is code of the FAISS
    library, which is not under src/. The spec describes it as an exact
    brute-force scan: the similarity to every stored vector is computed and
    the top [k] are returned by similarity descending, ties broken by lower
    insertion id. Where the spec is silent the model follows the library's
    Python wrapper: it asserts the query dimension and [k > 0], and the
    result has [k] slots, those without a neighbour filled with [no_hit]. *)
Definition search `{FloatKernel} (ix : IndexFlatIP) (x : vector) (k : Z)
  : result (list hit) :=
  if negb (List.length x =? d ix)%nat then Raise (Exn AssertionError "")
  else if negb (0 <? k) then Raise (Exn AssertionError "")
  else
    let top := firstn (Z.to_nat k) (rank (scores ix x)) in
    Ok (top ++ repeat no_hit (Z.to_nat k - List.length top)).

End Faiss.

(** ** src/vector_store.py *)

(** What a path on disk holds. [faiss.write_index]/[faiss.read_index] and
    [json.dump]/[json.load] are taken to be faithful: reading gives back
    the value written. [Truncated] is what [open(path, 'w')] leaves behind
    when [json.dump] raises. *)
Inductive file :=
| FaissFile (ix : Faiss.IndexFlatIP)
| JsonFile (m : list pydict)
| Truncated.

Abbreviation filesystem := (gmap string file).

(** Values [json.dump] accepts. *)
Fixpoint json_native (v : pyval) : bool :=
  match v with
  | PyNone | PyBool _ | PyInt _ | PyFloat _ | PyStr _ => true
  | PyList l => forallb json_native l
  | PyDict dct => forallb (fun kv => json_native (snd kv)) dct
  | NpInt _ | NpFloat _ | NpArray _ => false
  end.

Definition json_serializable (m : list pydict) : bool :=
  forallb (fun meta : pydict => forallb (fun kv => json_native (snd kv)) meta) m.

(** One search result, the dict
    [{"similarity": ..., "content": ..., "source": ..., "id": ...}]. *)
Record candidate := {
  similarity : Q;
  content : pyval;
  source : pyval;
  id : Z
}.

Module VectorStore.

Record t := {
  index_path : string;
  metadata_path : string;
  index : option Faiss.IndexFlatIP;
  metadata : list pydict
}.

Definition __init__ (index_path metadata_path : string) : t :=
  {| index_path := index_path; metadata_path := metadata_path;
     index := None; metadata := [] |}.

Definition set_index (self : t) (ix : Faiss.IndexFlatIP) : t :=
  {| index_path := index_path self; metadata_path := metadata_path self;
     index := Some ix; metadata := metadata self |}.

Definition set_metadata (self : t) (m : list pydict) : t :=
  {| index_path := index_path self; metadata_path := metadata_path self;
     index := index self; metadata := m |}.

Definition create_index (self : t) (embedding_dim : nat) : t :=
  set_index self (Faiss.new embedding_dim).

(** The per-value conversion of the cleaning loop. *)
Definition clean_value (value : pyval) : pyval :=
  match value with
  | NpInt z => PyInt z
  | NpFloat q => PyFloat q
  | NpArray a => PyList (map PyFloat a)
  | _ => value
  end.

Definition clean_meta (meta : pydict) : pydict :=
  foldl (fun cleaned_meta kv => dict_set (fst kv) (clean_value (snd kv)) cleaned_meta)
        [] meta.

(** [add_embeddings]: the store after the call and the outcome. Every
    [raise] precedes the first mutation. *)
Definition add_embeddings `{FloatKernel} (self : t) (embeddings : ndarray)
    (metadata_in : list pydict) : t * result unit :=
  match index self with
  | None => (self, Raise (Exn ValueError "Index not initialized. Call create_index first."))
  | Some ix =>
      if negb (List.length (rows embeddings) =? List.length metadata_in)%nat then
        (self, Raise (Exn ValueError
                        "Number of embeddings must match number of metadata entries"))
      else if negb (shape1 embeddings =? Faiss.d ix)%nat then
        (self, Raise (Exn ValueError
                        ("Embedding dimension mismatch: index expects "
                           +:+ pretty (Faiss.d ix) +:+ ", got "
                           +:+ pretty (shape1 embeddings))))
      else
        let ix' := Faiss.add ix (map normalize_L2 (rows embeddings)) in
        let cleaned_metadata := map clean_meta metadata_in in
        ({| index_path := index_path self; metadata_path := metadata_path self;
            index := Some ix'; metadata := metadata self ++ cleaned_metadata |},
         Ok tt)
  end.

(** The body of the [for] loop of [search], under the [try]. *)
Fixpoint collect_results (metadata : list pydict) (hits : list Faiss.hit)
  : result (list candidate) :=
  match hits with
  | [] => Ok []
  | (sim, idx) :: hits' =>
      if (idx <? Z.of_nat (List.length metadata)) && Qlt_bool 0 sim then
        meta <- getitem metadata idx ;;
        c <- dict_getitem "content" meta ;;
        results <- collect_results metadata hits' ;;
        Ok ({| similarity := sim; content := c;
               source := dict_get_default "source" (PyStr "unknown") meta;
               id := idx |} :: results)
      else collect_results metadata hits'
  end.

(** [search] reads [self] and never assigns to it; every path returns a
    list, the [except] clause included. *)
Definition search `{FloatKernel} (self : t) (query_embedding : vector) (k : Z)
  : result (list candidate) :=
  match index self with
  | None => Ok []
  | Some ix =>
      if (Faiss.ntotal ix =? 0)%nat then Ok []
      else if negb (List.length query_embedding =? Faiss.d ix)%nat then Ok []
      else
        match (hits <- Faiss.search ix (normalize_L2 query_embedding) k ;;
               collect_results (metadata self) hits) with
        | Ok results => Ok results
        | Raise _ => Ok []
        end
  end.

(** [save]: the file system after the call and the outcome. *)
Definition save (self : t) (fs : filesystem) : filesystem * result unit :=
  match index self with
  | None => (fs, Raise (Exn ValueError "No index to save"))
  | Some ix =>
      let fs1 := <[index_path self := FaissFile ix]> fs in
      if json_serializable (metadata self) then
        (<[metadata_path self := JsonFile (metadata self)]> fs1, Ok tt)
      else
        (<[metadata_path self := Truncated]> fs1,
         Raise (Exn TypeError "Object is not JSON serializable"))
  end.

(** [load]: the store after the call and the outcome. *)
Definition load (self : t) (fs : filesystem) : t * result unit :=
  match fs !! index_path self with
  | None => (self, Raise (Exn FileNotFoundError
                            ("Index file not found: " +:+ index_path self)))
  | Some (FaissFile ix) =>
      let self1 := set_index self ix in
      match fs !! metadata_path self with
      | Some (JsonFile m) => (set_metadata self1 m, Ok tt)
      | Some _ => (self1, Raise (Exn JSONDecodeError "Expecting value"))
      | None => (self1, Ok tt)
      end
  | Some _ => (self, Raise (Exn RuntimeError "Error reading index file"))
  end.

Definition get_stats (self : t) : pydict :=
  match index self with
  | None => [("status", PyStr "not_initialized")]
  | Some ix =>
      [("status", PyStr "loaded");
       ("total_entries", PyInt (Z.of_nat (Faiss.ntotal ix)));
       ("embedding_dim", PyInt (Z.of_nat (Faiss.d ix)));
       ("metadata_count", PyInt (Z.of_nat (List.length (metadata self))))]
  end.

End VectorStore.

(** ** app_config.py *)

Module AppConfig.

(** [0.6] as the double it denotes: [5404319552844595 / 2^53]. *)
Definition SIMILARITY_THRESHOLD : Q := (5404319552844595 # 9007199254740992)%Q.
Definition TOP_K_RESULTS : Z := 8.

End AppConfig.

(** ** src/embeddings.py *)

(** The sentence-transformer model is an external collaborator. *)
Record EmbeddingGenerator := { generate_embedding : string -> vector }.

(** ** src/retriever.py *)

Module EnhancedFactRetriever.

Record t := {
  embedding_generator : EmbeddingGenerator;
  vector_store : VectorStore.t
}.

Definition retrieve_similar_facts `{FloatKernel} (self : t) (claim : string)
    (top_k : option Z) (similarity_threshold : option Q)
  : result (list candidate) :=
  let top_k := default AppConfig.TOP_K_RESULTS top_k in
  let similarity_threshold :=
    default AppConfig.SIMILARITY_THRESHOLD similarity_threshold in
  let claim_embedding := generate_embedding (embedding_generator self) claim in
  initial_results <-
    VectorStore.search (vector_store self) claim_embedding (top_k * 2) ;;
  let filtered_results :=
    List.filter (fun result => Qle_bool similarity_threshold (similarity result))
                initial_results in
  let filtered_results :=
    if is_empty filtered_results && negb (is_empty initial_results)
    then slice_to initial_results 2
    else filtered_results in
  Ok (slice_to filtered_results top_k).

End EnhancedFactRetriever.

(** The original retriever of [src/retriever.py], kept by the source for
    compatibility: one search for [top_k] candidates, then the threshold. *)
Module FactRetriever.

Record t := {
  embedding_generator : EmbeddingGenerator;
  vector_store : VectorStore.t
}.

Definition retrieve_similar_facts `{FloatKernel} (self : t) (claim : string)
    (top_k : option Z) (similarity_threshold : option Q)
  : result (list candidate) :=
  let top_k := default AppConfig.TOP_K_RESULTS top_k in
  let similarity_threshold :=
    default AppConfig.SIMILARITY_THRESHOLD similarity_threshold in
  let claim_embedding := generate_embedding (embedding_generator self) claim in
  results <- VectorStore.search (vector_store self) claim_embedding top_k ;;
  let filtered_results :=
    List.filter (fun result => Qle_bool similarity_threshold (similarity result))
                results in
  Ok filtered_results.

End FactRetriever.

(** ** src/claim_extractor.py *)

(** The text routines the extractor calls: the spaCy pipeline (sentence
    texts and entity text/label pairs of [nlp(text)]), [spacy.explain],
    [re.search(pattern, text, re.IGNORECASE)] as a truth value, [str.strip]
    and [str.split]. *)
Class TextKernel := {
  nlp_sents : string -> list string;
  nlp_ents : string -> list (string * string);
  spacy_explain : string -> pyval;
  re_search : string -> string -> bool;
  str_strip : string -> string;
  str_split : string -> list string
}.

Module ClaimExtractor.

Definition factual_patterns : list string :=
  [ "\b(announced|declared|stated|confirmed|revealed|launched|introduced)\b";
    "\b(will|shall|going to)\b";
    "\b(government|minister|official|department)\b";
    "\d{4}";
    "\b(scheme|policy|program|initiative)\b" ].

Definition non_factual_patterns : list string :=
  [ "^\s*[?]";
    "\b(I think|I believe|in my opinion|probably|maybe)\b";
    "^\s*[!]" ].

Definition _is_factual_claim `{TextKernel} (text : string) : bool :=
  let has_factual := existsb (fun pattern => re_search pattern text) factual_patterns in
  let has_non_factual :=
    existsb (fun pattern => re_search pattern text) non_factual_patterns in
  has_factual && negb has_non_factual && (4 <=? List.length (str_split text))%nat.

Definition extract_claims `{TextKernel} (text : string) : list string :=
  let claims :=
    List.filter _is_factual_claim (map str_strip (nlp_sents text)) in
  let claims := if is_empty claims then [text] else claims in
  slice_to claims 3.

Definition extract_entities `{TextKernel} (text : string) : list pyval :=
  map (fun ent : string * string =>
         PyDict [("text", PyStr (fst ent)); ("label", PyStr (snd ent));
                 ("description", spacy_explain (snd ent))])
      (nlp_ents text).

End ClaimExtractor.

(** ** src/llm_client.py *)

(** [json.loads], restricted to inputs that start with an opening brace: a
    dict or an exception. *)
Class JsonKernel := { json_loads : string -> result pydict }.

Definition candidate_dict (c : candidate) : pyval :=
  PyDict [("similarity", PyFloat (similarity c)); ("content", content c);
          ("source", source c); ("id", PyInt (id c))].

Module GroqClient.

(** [complete claim retrieved_facts] is the outcome of the request of
    [fact_check_claim]: the prompt built from the claim and the evidence is
    posted; the result is the stripped content of the first choice, or the
    exception raised by the transport, by [raise_for_status], by the
    decoding of the body or by the accesses into it. *)
Record t := {
  api_key : string;
  model : string;
  complete : string -> list candidate -> result string
}.

Definition _get_fallback_response (retrieved_facts : list candidate)
    (error_msg : string) : pydict :=
  [("verdict", PyStr "UNVERIFIABLE");
   ("confidence", PyStr "low");
   ("reasoning", PyStr ("Analysis error: " +:+ error_msg));
   ("key_evidence", PyList []);
   ("semantic_matches",
     PyDict [("entity_matches", PyList []);
             ("conceptual_alignment", PyStr "analysis_failed");
             ("wording_differences", PyStr "analysis_failed")]);
   ("retrieved_facts_count", PyInt (Z.of_nat (List.length retrieved_facts)));
   ("retrieved_facts", PyList (map candidate_dict retrieved_facts))].

Definition _get_error_response (error_msg : string) : pydict :=
  [("verdict", PyStr "UNVERIFIABLE");
   ("confidence", PyStr "very_low");
   ("reasoning", PyStr ("Service error: " +:+ error_msg));
   ("key_evidence", PyList []);
   ("semantic_matches",
     PyDict [("entity_matches", PyList []);
             ("conceptual_alignment", PyStr "service_unavailable");
             ("wording_differences", PyStr "service_unavailable")]);
   ("retrieved_facts_count", PyInt 0);
   ("retrieved_facts", PyList [])].

Definition required : list string :=
  ["verdict"; "confidence"; "reasoning"; "key_evidence"].

Definition fill_required (result : pydict) (field : string) : pydict :=
  if dict_contains field result then result
  else dict_set field
         (if String.eqb field "key_evidence" then PyList [] else PyStr "unknown")
         result.

(** The [try] block of [_parse_enhanced_response]. *)
Definition parse_attempt `{JsonKernel} (response_text : string)
    (retrieved_facts : list candidate) : result pydict :=
  let start_idx := str_find "{"%char response_text in
  let end_idx := str_rfind "}"%char response_text in
  if negb (start_idx =? -1) && negb (end_idx =? -1) then
    let json_str := str_slice response_text start_idx (end_idx + 1) in
    result <- json_loads json_str ;;
    let result := foldl fill_required result required in
    let result :=
      if dict_contains "semantic_matches" result then result
      else dict_set "semantic_matches"
             (PyDict [("entity_matches", PyList []);
                      ("conceptual_alignment", PyStr "not_analyzed");
                      ("wording_differences", PyStr "not_analyzed")])
             result in
    let result :=
      dict_set "retrieved_facts_count"
               (PyInt (Z.of_nat (List.length retrieved_facts))) result in
    let result :=
      dict_set "retrieved_facts" (PyList (map candidate_dict retrieved_facts))
               result in
    Ok result
  else Raise (Exn ValueError "No JSON found in response").

Definition _parse_enhanced_response `{JsonKernel} (response_text : string)
    (retrieved_facts : list candidate) : pydict :=
  match parse_attempt response_text retrieved_facts with
  | Ok result => result
  | Raise e => _get_fallback_response retrieved_facts (exn_msg e)
  end.

Definition fact_check_claim `{JsonKernel} (self : t) (claim : string)
    (retrieved_facts : list candidate) : result pydict :=
  match complete self claim retrieved_facts with
  | Ok result_text => Ok (_parse_enhanced_response result_text retrieved_facts)
  | Raise e => Ok (_get_error_response (exn_msg e))
  end.

End GroqClient.

(** ** src/fact_checker.py *)

(** One element of [claim_results]:
    [{"claim": ..., "verification_result": ...}]. *)
Record claim_result := {
  claim : string;
  verification_result : pydict
}.

Definition claim_result_dict (r : claim_result) : pyval :=
  PyDict [("claim", PyStr (claim r));
          ("verification_result", PyDict (verification_result r))].

Module FactChecker.

Record t := {
  claim_extractor : TextKernel;
  retriever : EnhancedFactRetriever.t;
  llm_client : GroqClient.t
}.

Definition _get_no_claims_response (text : string) : pydict :=
  [("original_text", PyStr text);
   ("verdict", PyStr "UNVERIFIABLE");
   ("reasoning",
     PyStr "No verifiable factual claims could be extracted from the input.");
   ("claims_analyzed", PyList []);
   ("entities_found", PyList []);
   ("confidence", PyStr "low");
   ("error", PyStr "No factual claims detected")].

Definition _aggregate_results (text : string) (claim_results : list claim_result)
    (entities : list pyval) : result pydict :=
  first <- getitem claim_results 0 ;;
  let primary_result := verification_result first in
  Ok [("original_text", PyStr text);
      ("verdict", dict_get_default "verdict" (PyStr "UNVERIFIABLE") primary_result);
      ("reasoning",
        dict_get_default "reasoning" (PyStr "No reasoning provided") primary_result);
      ("confidence", dict_get_default "confidence" (PyStr "low") primary_result);
      ("claims_analyzed",
        PyList (map (fun result => PyStr (claim result)) claim_results));
      ("verification_details", PyList (map claim_result_dict claim_results));
      ("entities_found", PyList entities);
      ("key_evidence", dict_get_default "key_evidence" (PyList []) primary_result);
      ("retrieved_facts_count",
        dict_get_default "retrieved_facts_count" (PyInt 0) primary_result)].

(** The body of the per-claim loop of [check_claim]. *)
Definition verify_claim `{FloatKernel} `{JsonKernel} (self : t) (c : string)
  : result claim_result :=
  retrieved_facts <-
    EnhancedFactRetriever.retrieve_similar_facts (retriever self) c None None ;;
  verification_result <-
    GroqClient.fact_check_claim (llm_client self) c retrieved_facts ;;
  Ok {| claim := c; verification_result := verification_result |}.

Definition check_claim `{FloatKernel} `{JsonKernel} (self : t) (text : string)
  : result pydict :=
  let claims := @ClaimExtractor.extract_claims (claim_extractor self) text in
  let entities := @ClaimExtractor.extract_entities (claim_extractor self) text in
  if is_empty claims then Ok (_get_no_claims_response text)
  else
    claim_results <- for_each (verify_claim self) claims ;;
    _aggregate_results text claim_results entities.

End FactChecker.

(** ** src/embeddings.py, the batch side *)

Module Embeddings.

(** The sentence-transformer model: [encode] on a list of texts gives a
    two-dimensional array. *)
Record model := {
  encode : list pyval -> ndarray;
  get_sentence_embedding_dimension : nat
}.



End Embeddings.

(** ** scripts/build_vector_store.py *)



Module BuildVectorStore.









End BuildVectorStore.

(** ** Concrete collaborators for the examples *)

Module Fixtures.

Definition dot (x y : vector) : Q :=
  Qred (foldr Qplus 0%Q (zip_with Qmult x y)).

(** The reciprocal of the sum of the absolute values. On a vector with a
    single non-zero entry this sum is the L2 norm, and the examples use no
    other vectors; on those the float32 routines are exact as well. *)
Definition inv_norm_axis (v : vector) : option Q :=
  let n := foldr Qplus 0%Q (map Qabs v) in
  if Qeq_bool n 0 then None else Some (Qred (/ n)).

Definition axis_kernel : FloatKernel :=
  {| inv_norm_L2 := inv_norm_axis;
     fmul := fun x y => Qred (x * y);
     fvec_inner_product := dot |}.

Definition doc (text src : string) : pydict :=
  [("content", PyStr text); ("source", PyStr src)].

Definition empty_store : VectorStore.t :=
  VectorStore.create_index (VectorStore.__init__ "faiss_index" "metadata.json") 2.

(** A store built through [add_embeddings]. *)
Definition store_of (vs : list vector) (ms : list pydict) : VectorStore.t :=
  fst (@VectorStore.add_embeddings axis_kernel empty_store
         {| shape1 := 2; rows := vs |} ms).

(** The embedding of a claim is read off its first character. *)
Definition axis_embedder : EmbeddingGenerator :=
  {| generate_embedding := fun text =>
       match text with
       | String "x" _ => [1; 0]
       | String "y" _ => [0; 1]
       | _ => [1; 0; 0]
       end%Q |}.

End Fixtures.

(** ** Vocabulary of the statements *)

Definition hit_of (c : candidate) : Faiss.hit := (similarity c, id c).

(** The guard of the result loop. *)
Definition eligible (n : nat) (h : Faiss.hit) : bool :=
  (h.2 <? Z.of_nat n) && Qlt_bool 0 h.1.

(** What the result loop reads from the metadata list for one hit. *)
Definition from_metadata (metadata : list pydict) (c : candidate) : Prop :=
  exists meta,
    metadata !! Z.to_nat (id c) = Some meta /\
    dict_get "content" meta = Some (content c) /\
    source c = dict_get_default "source" (PyStr "unknown") meta.

(** The candidates that pass the threshold. *)
Definition passing (threshold : Q) (l : list candidate) : list candidate :=
  List.filter (fun c => Qle_bool threshold (similarity c)) l.

(** By similarity descending. *)
Definition descending (l : list candidate) : Prop :=
  StronglySorted (fun c1 c2 => (similarity c2 <= similarity c1)%Q) l.

(** A degraded verification result. *)
Definition degraded (confidence reasoning : string) (r : pydict) : Prop :=
  dict_get "verdict" r = Some (PyStr "UNVERIFIABLE") /\
  dict_get "confidence" r = Some (PyStr confidence) /\
  dict_get "reasoning" r = Some (PyStr reasoning) /\
  dict_get "key_evidence" r = Some (PyList []).

(** The four fields every verification result carries. *)
Definition well_shaped (r : pydict) : Prop :=
  Forall (fun field => dict_contains field r = true) GroqClient.required.

(** The fields taken from the primary result, each with its default. *)
Definition primary_fields : list (string * pyval) :=
  [("verdict", PyStr "UNVERIFIABLE");
   ("confidence", PyStr "low");
   ("reasoning", PyStr "No reasoning provided");
   ("key_evidence", PyList [])].

(** The store after creating an index of dimension [dim] and submitting the
    batches in turn, whatever the outcome of each call. *)
Definition built `{FloatKernel} (index_path metadata_path : string) (dim : nat)
    (batches : list (ndarray * list pydict)) : VectorStore.t :=
  foldl (fun st b => (VectorStore.add_embeddings st b.1 b.2).1)
        (VectorStore.create_index (VectorStore.__init__ index_path metadata_path) dim)
        batches.

(** A metadata value that is JSON-native or one of the numpy values the
    cleaning loop converts. *)
Definition cleanable (v : pyval) : bool :=
  match v with
  | NpInt _ | NpFloat _ | NpArray _ => true
  | _ => json_native v
  end.

Definition cleanable_metadata (m : list pydict) : bool :=
  forallb (fun meta : pydict => forallb (fun kv => cleanable (snd kv)) meta) m.


(** ** Stores, clients and inputs of the examples *)

(** A store holding the same vector twice (records 0 and 2). *)
Definition tie_store : VectorStore.t :=
  Fixtures.store_of [[1; 0]; [0; 1]; [1; 0]]%Q
    [Fixtures.doc "first" "A"; Fixtures.doc "second" "B"; Fixtures.doc "third" "A"].

Definition tie_retriever : EnhancedFactRetriever.t :=
  {| EnhancedFactRetriever.embedding_generator := Fixtures.axis_embedder;
     EnhancedFactRetriever.vector_store := tie_store |}.

(** Three records, none of them at a positive similarity to the query
    [[1; 0]]: the similarities are [-1], [0] and [0]. *)
Definition opposed_store : VectorStore.t :=
  Fixtures.store_of [[-1; 0]; [0; 1]; [0; -1]]%Q
    [Fixtures.doc "first" "A"; Fixtures.doc "second" "B"; Fixtures.doc "third" "C"].

Definition opposed_retriever : EnhancedFactRetriever.t :=
  {| EnhancedFactRetriever.embedding_generator := Fixtures.axis_embedder;
     EnhancedFactRetriever.vector_store := opposed_store |}.

(** A snapshot with three vectors and a single metadata record. *)
Definition mismatched_snapshot : filesystem :=
  <["faiss_index" := FaissFile {| Faiss.d := 2;
                                  Faiss.xb := [[1; 0]; [0; 1]; [1; 0]]%Q |}]>
    (<["metadata.json" := JsonFile [Fixtures.doc "only" "A"]]> ∅).

(** A JSON decoder that rejects every input; the examples below never get
    as far as calling it, or call it on text that is not JSON. *)
Definition rejecting_json : JsonKernel :=
  {| json_loads := fun _ => Raise (Exn JSONDecodeError "Expecting value") |}.

(** A client whose request times out. *)
Definition timeout_client : GroqClient.t :=
  {| GroqClient.api_key := "key"; GroqClient.model := "llama-3.3-70b-versatile";
     GroqClient.complete := fun _ _ => Raise (Exn RequestException "Read timed out.") |}.

(** A client whose model answers in prose, without a JSON object. *)
Definition prose_client : GroqClient.t :=
  {| GroqClient.api_key := "key"; GroqClient.model := "llama-3.3-70b-versatile";
     GroqClient.complete := fun _ _ => Ok "The claim appears to be true." |}.

(** Two per-claim results, the first TRUE, the second FALSE. *)
Definition true_then_false : list claim_result :=
  [ {| claim := "Railways run steam locomotives for tourism.";
       verification_result := [("verdict", PyStr "TRUE"); ("confidence", PyStr "high")] |};
    {| claim := "Steel plants were closed in 2003.";
       verification_result := [("verdict", PyStr "FALSE")] |} ].

(** A text pipeline that sees one sentence and matches no pattern. *)
Definition plain_text : TextKernel :=
  {| nlp_sents := fun text => [text];
     nlp_ents := fun _ => [];
     spacy_explain := fun _ => PyNone;
     re_search := fun _ _ => false;
     str_strip := fun text => text;
     str_split := fun text => [text] |}.

Definition plain_checker : FactChecker.t :=
  {| FactChecker.claim_extractor := plain_text;
     FactChecker.retriever := tie_retriever;
     FactChecker.llm_client := timeout_client |}.

(** Two batches for a store of dimension 2: the first is accepted, the
    second has rows of length 3 and is rejected. *)
Definition example_batches : list (ndarray * list pydict) :=
  [ ({| shape1 := 2; rows := [[1; 0]; [0; 1]]%Q |},
     [Fixtures.doc "first" "A"; Fixtures.doc "second" "B"]);
    ({| shape1 := 3; rows := [[0; 0; 1]]%Q |}, [Fixtures.doc "third" "C"]) ].

(** A metadata record as pandas delivers it: the id is a numpy integer. *)
Definition numpy_doc : pydict :=
  [("content", PyStr "Railways. Steam locomotives."); ("pr_id", NpInt 7);
   ("score", NpFloat (1 # 2)); ("vector", NpArray [1; 0]%Q)].



(** A snapshot of which only the index file is left. *)
Definition index_only_snapshot : filesystem :=
  <["faiss_index" := FaissFile {| Faiss.d := 2;
                                  Faiss.xb := [[1; 0]; [0; 1]; [1; 0]]%Q |}]> ∅.

(** A JSON decoder that knows the empty object. *)
Definition empty_object_json : JsonKernel :=
  {| json_loads := fun s =>
       if String.eqb s "{}" then Ok []
       else Raise (Exn JSONDecodeError "Expecting value") |}.




(** A checker whose store was never loaded. *)
Definition unloaded_checker : FactChecker.t :=
  {| FactChecker.claim_extractor := plain_text;
     FactChecker.retriever :=
       {| EnhancedFactRetriever.embedding_generator := Fixtures.axis_embedder;
          EnhancedFactRetriever.vector_store :=
            VectorStore.__init__ "faiss_index" "metadata.json" |};
     FactChecker.llm_client := prose_client |}.

(** * Properties *)

(** ** Rational comparisons *)

Lemma Qlt_bool_iff (x y : Q) : Qlt_bool x y = true <-> (x < y)%Q.
Proof.
  unfold Qlt_bool. rewrite negb_true_iff. split.
  - intros Hb. apply Qnot_le_lt. intros Hle.
    apply Qle_bool_iff in Hle. congruence.
  - intros Hlt. destruct (Qle_bool y x) eqn:Hb; [|reflexivity].
    apply Qle_bool_iff in Hb. exfalso. exact (Qlt_not_le _ _ Hlt Hb).
Qed.

Lemma Qlt_bool_false_iff (x y : Q) : Qlt_bool x y = false <-> (y <= x)%Q.
Proof.
  unfold Qlt_bool. rewrite negb_false_iff. apply Qle_bool_iff.
Qed.

(** ** The ranking order of the flat index *)

Module RankFacts.
Import Faiss.

Lemma ranks_before_spec h1 h2 : ranks_before h1 h2 = true <-> hit_le h1 h2.
Proof.
  unfold ranks_before, hit_le.
  rewrite orb_true_iff, andb_true_iff, Qlt_bool_iff, Qeq_bool_iff, Z.leb_le.
  reflexivity.
Qed.

Lemma hit_le_total h1 h2 : ranks_before h1 h2 = false -> hit_le h2 h1.
Proof.
  unfold ranks_before, hit_le.
  rewrite orb_false_iff, andb_false_iff, Qlt_bool_false_iff, Z.leb_gt.
  intros [Hle [Hne | Hlt]].
  - left. apply Qle_lteq in Hle as [Hlt | Heq]; [exact Hlt|].
    apply Qeq_bool_neq in Hne. contradiction.
  - apply Qle_lteq in Hle as [Hlt' | Heq]; [left; exact Hlt'|].
    right. split; [symmetry; exact Heq | lia].
Qed.

Lemma hit_le_trans h1 h2 h3 : hit_le h1 h2 -> hit_le h2 h3 -> hit_le h1 h3.
Proof.
  unfold hit_le. intros [H12 | [E12 L12]] [H23 | [E23 L23]].
  - left. eapply Qlt_trans; eassumption.
  - left. rewrite <- E23. exact H12.
  - left. rewrite E12. exact H23.
  - right. split; [rewrite E12; exact E23 | lia].
Qed.

Lemma hit_le_lt h1 h2 : hit_le h1 h2 -> h1.2 <> h2.2 -> hit_lt h1 h2.
Proof.
  unfold hit_le, hit_lt. intros [Hlt | [Heq Hle]] Hne; [left; exact Hlt|].
  right. split; [exact Heq | lia].
Qed.

Lemma hit_lt_sim h1 h2 : hit_lt h1 h2 -> (h2.1 <= h1.1)%Q.
Proof.
  intros [Hlt | [Heq _]]; [apply Qlt_le_weak; exact Hlt|].
  rewrite Heq. apply Qle_refl.
Qed.

Lemma hit_lt_tie h1 h2 : hit_lt h1 h2 -> h1.1 == h2.1 -> h1.2 < h2.2.
Proof.
  intros [Hlt | [_ Hid]] Heq; [|exact Hid].
  rewrite Heq in Hlt. exfalso. exact (Qlt_irrefl _ Hlt).
Qed.

Lemma insert_ranked_perm h l : insert_ranked h l ≡ₚ h :: l.
Proof.
  induction l as [|h' l IH]; simpl; [reflexivity|].
  destruct (ranks_before h h'); [reflexivity|].
  rewrite IH. apply Permutation_swap.
Qed.

Lemma rank_perm l : rank l ≡ₚ l.
Proof.
  induction l as [|h l IH]; simpl; [reflexivity|].
  rewrite insert_ranked_perm, IH. reflexivity.
Qed.

Lemma insert_ranked_sorted h l :
  StronglySorted hit_le l -> StronglySorted hit_le (insert_ranked h l).
Proof.
  induction 1 as [|h' l Hl IH Hall]; simpl.
  - constructor; [constructor | constructor].
  - destruct (ranks_before h h') eqn:Hb.
    + apply ranks_before_spec in Hb.
      constructor; [constructor; assumption|].
      constructor; [exact Hb|].
      eapply Forall_impl; [exact Hall|].
      intros h3 H3. eapply hit_le_trans; eassumption.
    + apply hit_le_total in Hb.
      constructor; [exact IH|].
      rewrite insert_ranked_perm. constructor; assumption.
Qed.

Lemma rank_sorted l : StronglySorted hit_le (rank l).
Proof.
  induction l as [|h l IH]; simpl; [constructor|].
  apply insert_ranked_sorted, IH.
Qed.

(** With pairwise distinct labels the order is strict. *)
Lemma sorted_strict l :
  StronglySorted hit_le l -> NoDup l.*2 -> StronglySorted hit_lt l.
Proof.
  induction 1 as [|h l Hl IH Hall]; intros Hnd; [constructor|].
  rewrite fmap_cons in Hnd. apply NoDup_cons in Hnd as [Hnotin Hnd].
  constructor; [apply IH, Hnd|].
  rewrite Forall_forall in Hall. apply Forall_forall. intros h' Hin.
  apply hit_le_lt; [apply Hall, Hin|].
  intros Heq. apply Hnotin. rewrite Heq.
  apply list_elem_of_fmap. exists h'. split; [reflexivity | exact Hin].
Qed.

Lemma sorted_sublist {A} (R : A -> A -> Prop) (l1 l2 : list A) :
  l1 `sublist_of` l2 -> StronglySorted R l2 -> StronglySorted R l1.
Proof.
  induction 1 as [|x l1 l2 Hsub IH|x l1 l2 Hsub IH]; intros Hs.
  - constructor.
  - apply StronglySorted_inv in Hs as [Hs Hall].
    constructor; [apply IH, Hs|].
    rewrite Forall_forall in Hall. apply Forall_forall.
    intros y Hy. apply Hall. eapply elem_of_sublist; eassumption.
  - apply StronglySorted_inv in Hs as [Hs _]. apply IH, Hs.
Qed.

Lemma sorted_lookup {A} (R : A -> A -> Prop) (l : list A) i j x y :
  StronglySorted R l -> (i < j)%nat -> l !! i = Some x -> l !! j = Some y -> R x y.
Proof.
  intros Hs. revert i j. induction Hs as [|a l Hs IH Hall]; intros i j Hij Hi Hj.
  - rewrite lookup_nil in Hi. discriminate.
  - destruct j as [|j]; [lia|]. simpl in Hj.
    destruct i as [|i]; simpl in Hi.
    + injection Hi as <-. rewrite Forall_forall in Hall.
      apply Hall. eapply list_elem_of_lookup_2, Hj.
    + eapply IH; [|eassumption..]. lia.
Qed.

End RankFacts.

(** ** Facts about [VectorStore.search] *)

Section SearchFacts.
Context `{FloatKernel}.
Import Faiss RankFacts.

Lemma filter_sublist {A} (f : A -> bool) (l : list A) :
  List.filter f l `sublist_of` l.
Proof.
  induction l as [|x l IH]; simpl; [constructor|].
  destruct (f x); [apply sublist_skip | apply sublist_cons]; exact IH.
Qed.

Lemma filter_all {A} (f : A -> bool) (l : list A) :
  Forall (fun x => f x = true) l -> List.filter f l = l.
Proof.
  induction 1 as [|x l Hx _ IH]; simpl; [reflexivity|].
  rewrite Hx, IH. reflexivity.
Qed.

Lemma filter_none {A} (f : A -> bool) (l : list A) :
  Forall (fun x => f x = false) l -> List.filter f l = [].
Proof.
  induction 1 as [|x l Hx _ IH]; simpl; [reflexivity|].
  rewrite Hx. exact IH.
Qed.

Lemma filter_ext_Forall {A} (f g : A -> bool) (l : list A) :
  Forall (fun x => f x = g x) l -> List.filter f l = List.filter g l.
Proof.
  induction 1 as [|x l Hx _ IH]; simpl; [reflexivity|].
  rewrite Hx, IH. reflexivity.
Qed.

Lemma filter_length_perm {A} (f : A -> bool) (l1 l2 : list A) :
  l1 ≡ₚ l2 -> List.length (List.filter f l1) = List.length (List.filter f l2).
Proof.
  induction 1 as [|x l1 l2 _ IH|x y l|l1 l2 l3 _ IH1 _ IH2]; simpl.
  - reflexivity.
  - destruct (f x); simpl; congruence.
  - destruct (f x), (f y); reflexivity.
  - congruence.
Qed.

Lemma collect_results_hits metadata hits results :
  VectorStore.collect_results metadata hits = Ok results ->
  map hit_of results = List.filter (eligible (List.length metadata)) hits.
Proof.
  revert results. induction hits as [|[sim idx] hits IH]; intros results; simpl.
  - intros [= <-]. reflexivity.
  - unfold eligible at 1. simpl.
    destruct ((idx <? Z.of_nat (List.length metadata)) && Qlt_bool 0 sim);
      [|exact (IH results)].
    destruct (getitem metadata idx) as [meta|]; simpl; [|discriminate].
    destruct (dict_getitem "content" meta) as [c|]; simpl; [|discriminate].
    destruct (VectorStore.collect_results metadata hits) as [rs|]; simpl;
      [|discriminate].
    intros [= <-]. simpl. unfold hit_of at 1. simpl.
    f_equal. apply IH. reflexivity.
Qed.

Lemma getitem_nonneg {A} (l : list A) (i : Z) x :
  0 <= i -> getitem l i = Ok x -> l !! Z.to_nat i = Some x.
Proof.
  intros Hi. unfold getitem.
  destruct (i <? 0) eqn:Hneg; [apply Z.ltb_lt in Hneg; lia|].
  destruct ((i <? 0) || (Z.of_nat (List.length l) <=? i)); [discriminate|].
  destruct (l !! Z.to_nat i); [|discriminate].
  intros [= <-]. reflexivity.
Qed.

Lemma getitem_in_range {A} (l : list A) (i : Z) :
  0 <= i < Z.of_nat (List.length l) -> exists x, getitem l i = Ok x.
Proof.
  intros [Hlo Hhi]. unfold getitem.
  destruct (i <? 0) eqn:Hneg; [apply Z.ltb_lt in Hneg; lia|].
  destruct (Z.of_nat (List.length l) <=? i) eqn:Hge;
    [apply Z.leb_le in Hge; lia|].
  rewrite Hneg. simpl.
  destruct (l !! Z.to_nat i) as [x|] eqn:Hl; [exists x; reflexivity|].
  apply lookup_ge_None in Hl. lia.
Qed.

Lemma collect_results_sound metadata hits results :
  VectorStore.collect_results metadata hits = Ok results ->
  Forall (fun c => 0 <= id c) results ->
  Forall (from_metadata metadata) results.
Proof.
  revert results.
  induction hits as [|[sim idx] hits IH]; intros results; simpl.
  - intros [= <-] _. constructor.
  - destruct ((idx <? Z.of_nat (List.length metadata)) && Qlt_bool 0 sim);
      [|exact (IH results)].
    destruct (getitem metadata idx) as [meta|] eqn:Hmeta; simpl; [|discriminate].
    destruct (dict_getitem "content" meta) as [c|] eqn:Hc; simpl; [|discriminate].
    destruct (VectorStore.collect_results metadata hits) as [rs|]; simpl;
      [|discriminate].
    intros [= <-] Hnn. apply Forall_cons in Hnn as [Hnn0 Hnn]. simpl in Hnn0.
    constructor; [|apply IH; [reflexivity | exact Hnn]].
    exists meta. simpl. split; [apply getitem_nonneg; assumption|].
    split; [|reflexivity].
    unfold dict_getitem in Hc. destruct (dict_get "content" meta); congruence.
Qed.

Lemma collect_results_ok metadata hits :
  Forall (fun m => dict_contains "content" m = true) metadata ->
  Forall (fun h : hit => eligible (List.length metadata) h = true -> 0 <= h.2) hits ->
  exists results, VectorStore.collect_results metadata hits = Ok results.
Proof.
  intros Hcontent Hhits.
  induction Hhits as [|[sim idx] hits Hidx _ [rs IH]]; simpl.
  - eexists. reflexivity.
  - unfold eligible in Hidx. simpl in Hidx.
    destruct ((idx <? Z.of_nat (List.length metadata)) && Qlt_bool 0 sim) eqn:Hel;
      [|exists rs; exact IH].
    apply andb_true_iff in Hel as [Hlt _]. apply Z.ltb_lt in Hlt.
    destruct (getitem_in_range metadata idx) as [meta Hmeta];
      [split; [apply Hidx; reflexivity | exact Hlt]|].
    rewrite Hmeta. simpl.
    assert (Hin : meta ∈ metadata).
    { eapply list_elem_of_lookup_2, getitem_nonneg; [|exact Hmeta].
      apply Hidx. reflexivity. }
    rewrite Forall_forall in Hcontent. specialize (Hcontent _ Hin).
    unfold dict_contains in Hcontent. unfold dict_getitem.
    destruct (dict_get "content" meta) as [c|]; [|discriminate].
    simpl. rewrite IH. simpl. eexists. reflexivity.
Qed.

(** *** The score table *)

Lemma length_labels n : List.length (labels n) = n.
Proof. unfold labels. rewrite length_fmap, length_seq. reflexivity. Qed.

Lemma scores_labels ix x : (scores ix x).*2 = labels (ntotal ix).
Proof.
  unfold scores. apply snd_zip.
  rewrite length_labels, length_fmap. reflexivity.
Qed.

Lemma labels_NoDup n : NoDup (labels n).
Proof.
  unfold labels. apply (NoDup_fmap_2 Z.of_nat), NoDup_seq.
Qed.

Lemma labels_nonneg n : Forall (fun i => 0 <= i < Z.of_nat n) (labels n).
Proof.
  unfold labels. apply Forall_forall. intros i Hi.
  apply list_elem_of_fmap in Hi as [j [-> Hj]].
  apply list_elem_of_lookup in Hj as [p Hp].
  apply lookup_seq in Hp. lia.
Qed.

Lemma scores_range ix x :
  Forall (fun h : hit => 0 <= h.2 < Z.of_nat (ntotal ix)) (scores ix x).
Proof.
  apply Forall_forall. intros h Hh.
  pose proof (labels_nonneg (ntotal ix)) as Hl. rewrite Forall_forall in Hl.
  apply Hl. rewrite <- (scores_labels ix x).
  apply list_elem_of_fmap. exists h. split; [reflexivity | exact Hh].
Qed.

Lemma scores_lookup ix x j v :
  xb ix !! j = Some v ->
  scores ix x !! j = Some (fvec_inner_product x v, Z.of_nat j).
Proof.
  intros Hv. unfold scores. rewrite lookup_zip_with.
  rewrite list_lookup_fmap, Hv. simpl.
  unfold labels. rewrite list_lookup_fmap.
  assert (Hs : seq 0 (ntotal ix) !! j = Some j).
  { apply lookup_seq. split; [reflexivity|].
    apply lookup_lt_Some in Hv. exact Hv. }
  rewrite Hs. reflexivity.
Qed.

Lemma scores_elem ix x h :
  h ∈ scores ix x ->
  exists j v, xb ix !! j = Some v /\ h = (fvec_inner_product x v, Z.of_nat j).
Proof.
  intros Hh. apply list_elem_of_lookup in Hh as [j Hj].
  assert (Hlt : (j < List.length (xb ix))%nat).
  { pose proof (lookup_lt_Some _ _ _ Hj) as Hlen. unfold scores in Hlen.
    rewrite length_zip_with, length_fmap in Hlen. lia. }
  destruct (lookup_lt_is_Some_2 _ _ Hlt) as [v Hv].
  exists j, v. split; [exact Hv|].
  rewrite (scores_lookup ix x j v Hv) in Hj. congruence.
Qed.

Lemma rank_scores_strict ix x : StronglySorted hit_lt (rank (scores ix x)).
Proof.
  apply sorted_strict; [apply rank_sorted|].
  rewrite (rank_perm (scores ix x)), scores_labels. apply labels_NoDup.
Qed.

End SearchFacts.

Section SearchShape.
Context `{FloatKernel}.
Import Faiss RankFacts.

Lemma normalize_L2_length (v : vector) :
  List.length (normalize_L2 v) = List.length v.
Proof.
  unfold normalize_L2. destruct (inv_norm_L2 v); [apply length_map | reflexivity].
Qed.

Lemma eligible_no_hit n : eligible n no_hit = false.
Proof. unfold eligible. apply andb_false_r. Qed.

Lemma faiss_search_ok ix x k :
  List.length x = d ix -> 0 < k ->
  Faiss.search ix x k =
    Ok (let top := firstn (Z.to_nat k) (rank (scores ix x)) in
        top ++ repeat no_hit (Z.to_nat k - List.length top)).
Proof.
  intros Hd Hk. unfold Faiss.search.
  rewrite Hd, Nat.eqb_refl. simpl.
  destruct (0 <? k) eqn:Hkb; [reflexivity|].
  apply Z.ltb_ge in Hkb. lia.
Qed.

Lemma faiss_search_nonpositive ix x k :
  k <= 0 -> exists e, Faiss.search ix x k = Raise e.
Proof.
  intros Hk. unfold Faiss.search.
  destruct (negb (List.length x =? d ix)%nat); [eexists; reflexivity|].
  destruct (0 <? k) eqn:Hkb; [apply Z.ltb_lt in Hkb; lia|].
  eexists. reflexivity.
Qed.

Lemma filter_eligible_padded n top m :
  List.filter (eligible n) (top ++ repeat no_hit m) = List.filter (eligible n) top.
Proof.
  rewrite List.filter_app, (filter_none _ (repeat no_hit m)).
  - apply app_nil_r.
  - apply Forall_forall. intros h Hh.
    apply list_elem_of_In, repeat_spec in Hh. subst h. apply eligible_no_hit.
Qed.

(** [search] never raises. *)
Lemma search_total self q k : exists results, VectorStore.search self q k = Ok results.
Proof.
  unfold VectorStore.search.
  destruct (VectorStore.index self) as [ix|]; [|eexists; reflexivity].
  destruct (ntotal ix =? 0)%nat; [eexists; reflexivity|].
  destruct (negb _); [eexists; reflexivity|].
  destruct (hits <- _ ;; _); eexists; reflexivity.
Qed.

(** The hits behind a search result. *)
Lemma search_hits self q k results :
  VectorStore.search self q k = Ok results ->
  results = [] \/
  exists ix,
    VectorStore.index self = Some ix /\ List.length q = d ix /\ 0 < k /\
    let top := firstn (Z.to_nat k) (rank (scores ix (normalize_L2 q))) in
    VectorStore.collect_results (VectorStore.metadata self)
      (top ++ repeat no_hit (Z.to_nat k - List.length top)) = Ok results.
Proof.
  unfold VectorStore.search.
  destruct (VectorStore.index self) as [ix|]; [|intros [= <-]; left; reflexivity].
  destruct (ntotal ix =? 0)%nat; [intros [= <-]; left; reflexivity|].
  destruct (List.length q =? d ix)%nat eqn:Hd; simpl;
    [|intros [= <-]; left; reflexivity].
  apply Nat.eqb_eq in Hd.
  destruct (Z_lt_le_dec 0 k) as [Hk | Hk].
  - rewrite faiss_search_ok by (rewrite ?normalize_L2_length; assumption).
    simpl.
    destruct (VectorStore.collect_results _ _) as [rs|] eqn:Hc;
      intros [= <-]; [|left; reflexivity].
    right. exists ix. repeat split; assumption.
  - destruct (faiss_search_nonpositive ix (normalize_L2 q) k Hk) as [e ->].
    simpl. intros [= <-]. left. reflexivity.
Qed.

Lemma search_sublist self ix q k results :
  VectorStore.index self = Some ix ->
  VectorStore.search self q k = Ok results ->
  map hit_of results `sublist_of` rank (scores ix (normalize_L2 q)).
Proof.
  intros Hix Hs. apply search_hits in Hs as [-> | (ix' & Hix' & _ & _ & Hc)].
  - apply sublist_nil_l.
  - assert (ix' = ix) as -> by congruence.
    simpl in Hc. apply collect_results_hits in Hc. rewrite Hc.
    rewrite filter_eligible_padded.
    etransitivity; [apply filter_sublist | apply sublist_take].
Qed.

(** Results come by similarity descending, equal similarities by id
    ascending, whatever the state of the store. *)
Lemma search_ranked self q k results :
  VectorStore.search self q k = Ok results ->
  StronglySorted hit_lt (map hit_of results).
Proof.
  intros Hs. destruct (VectorStore.index self) as [ix|] eqn:Hix.
  - eapply sorted_sublist; [eapply search_sublist; eassumption|].
    apply rank_scores_strict.
  - unfold VectorStore.search in Hs. rewrite Hix in Hs.
    injection Hs as <-. constructor.
Qed.

(** On a store whose metadata list is aligned with the index. *)
Lemma search_aligned self ix q k :
  VectorStore.index self = Some ix ->
  List.length (VectorStore.metadata self) = ntotal ix ->
  Forall (fun m => dict_contains "content" m = true) (VectorStore.metadata self) ->
  List.length q = d ix -> 0 < k ->
  exists results,
    VectorStore.search self q k = Ok results /\
    map hit_of results =
      List.filter (fun h : hit => Qlt_bool 0 h.1)
                  (firstn (Z.to_nat k) (rank (scores ix (normalize_L2 q)))) /\
    Forall (from_metadata (VectorStore.metadata self)) results.
Proof.
  intros Hix Hlen Hcontent Hd Hk.
  set (R := rank (scores ix (normalize_L2 q))).
  assert (HR : Forall (fun h : hit => 0 <= h.2 < Z.of_nat (ntotal ix)) R).
  { unfold R. rewrite (rank_perm (scores ix (normalize_L2 q))).
    apply scores_range. }
  assert (HT : Forall (fun h : hit => 0 <= h.2 < Z.of_nat (ntotal ix))
                      (firstn (Z.to_nat k) R)).
  { rewrite Forall_forall in HR. apply Forall_forall. intros h Hh.
    apply HR. eapply elem_of_sublist; [exact Hh | apply sublist_take]. }
  destruct (Nat.eq_dec (ntotal ix) 0%nat) as [Hz | Hnz].
  - exists []. unfold VectorStore.search. rewrite Hix, Hz. simpl.
    split; [reflexivity|]. split; [|constructor].
    assert (R = []) as ->; [|destruct (Z.to_nat k); reflexivity].
    apply Permutation_nil_r. unfold R.
    rewrite (rank_perm (scores ix (normalize_L2 q))).
    unfold scores, ntotal in *. apply length_zero_iff_nil in Hz.
    rewrite Hz. reflexivity.
  - set (hits := firstn (Z.to_nat k) R
                   ++ repeat no_hit (Z.to_nat k - List.length (firstn (Z.to_nat k) R))).
    destruct (collect_results_ok (VectorStore.metadata self) hits Hcontent)
      as [results Hres].
    { apply Forall_app. split.
      - eapply Forall_impl; [exact HT|]. intros h [Hlo _] _. exact Hlo.
      - apply Forall_forall. intros h Hh.
        apply list_elem_of_In, repeat_spec in Hh. subst h.
        rewrite eligible_no_hit. discriminate. }
    exists results. split; [|split].
    + unfold VectorStore.search. rewrite Hix.
      destruct (ntotal ix =? 0)%nat eqn:Hzb; [apply Nat.eqb_eq in Hzb; lia|].
      rewrite Hd, Nat.eqb_refl. simpl.
      rewrite faiss_search_ok by (rewrite ?normalize_L2_length; assumption).
      simpl. fold R. fold hits. rewrite Hres. reflexivity.
    + rewrite (collect_results_hits _ _ _ Hres). unfold hits.
      rewrite filter_eligible_padded. apply filter_ext_Forall.
      eapply Forall_impl; [exact HT|]. intros h [_ Hhi].
      unfold eligible. rewrite Hlen.
      destruct (h.2 <? Z.of_nat (ntotal ix)) eqn:Hb; [reflexivity|].
      apply Z.ltb_ge in Hb. lia.
    + apply (collect_results_sound _ _ _ Hres).
      apply Forall_forall. intros c Hc.
      assert (Hin : hit_of c ∈
                List.filter (eligible (List.length (VectorStore.metadata self))) hits).
      { rewrite <- (collect_results_hits _ _ _ Hres).
        apply list_elem_of_In, in_map, list_elem_of_In, Hc. }
      apply list_elem_of_In, List.filter_In in Hin as [Hin Hel].
      apply list_elem_of_In in Hin. unfold hits in Hin.
      apply elem_of_app in Hin as [Hin | Hin].
      * rewrite Forall_forall in HT. apply (HT _ Hin).
      * apply list_elem_of_In, repeat_spec in Hin.
        rewrite Hin, eligible_no_hit in Hel. discriminate.
Qed.

End SearchShape.

(** ** Ranked search *)

Section RankedSearch.
Context `{FloatKernel}.
Import Faiss RankFacts.

Lemma lookup_map_hit_of (results : list candidate) i c :
  results !! i = Some c -> map hit_of results !! i = Some (hit_of c).
Proof.
  revert i. induction results as [|c' results IH]; intros [|i]; simpl;
    try discriminate.
  - intros [= ->]. reflexivity.
  - apply IH.
Qed.

Lemma positive_prefix (h : hit) (top rest : list hit) :
  StronglySorted hit_lt (top ++ rest) -> h ∈ rest -> (0 < h.1)%Q ->
  Forall (fun t : hit => hit_lt t h /\ Qlt_bool 0 t.1 = true) top.
Proof.
  intros Hs Hh Hpos. apply Forall_forall. intros t Ht.
  assert (Hlt : hit_lt t h).
  { eapply StronglySorted_app_1_elem_of; eassumption. }
  split; [exact Hlt|].
  apply Qlt_bool_iff. eapply Qlt_le_trans; [exact Hpos|].
  apply hit_lt_sim, Hlt.
Qed.

(** C3. For an index whose metadata list is aligned with its vectors, a
    query of the index dimension and a positive [k], [search] returns at
    most [k] candidates, each a stored record with its strictly positive
    similarity to the normalised query; they come by similarity descending,
    and of two candidates with equal similarity the one with the lower
    insertion id comes first; they are the top [k]: a stored record of
    positive similarity that is not returned is outranked by each of the
    [k] candidates returned. *)
Theorem search_top_k_ranked (self : VectorStore.t) (ix : IndexFlatIP)
    (q : vector) (k : Z) :
  VectorStore.index self = Some ix ->
  List.length (VectorStore.metadata self) = ntotal ix ->
  Forall (fun m => dict_contains "content" m = true) (VectorStore.metadata self) ->
  List.length q = d ix ->
  0 < k ->
  exists results,
    VectorStore.search self q k = Ok results /\
    (List.length results <= Z.to_nat k)%nat /\
    Forall (fun c =>
              (0 < similarity c)%Q /\ 0 <= id c /\
              exists v, xb ix !! Z.to_nat (id c) = Some v /\
                        similarity c = fvec_inner_product (normalize_L2 q) v)
           results /\
    (forall i j ci cj,
        (i < j)%nat -> results !! i = Some ci -> results !! j = Some cj ->
        (similarity cj <= similarity ci)%Q /\
        (similarity ci == similarity cj -> id ci < id cj)) /\
    (forall j v,
        xb ix !! j = Some v ->
        (0 < fvec_inner_product (normalize_L2 q) v)%Q ->
        (forall c, c ∈ results -> id c <> Z.of_nat j) ->
        List.length results = Z.to_nat k /\
        Forall (fun c => hit_lt (hit_of c)
                           (fvec_inner_product (normalize_L2 q) v, Z.of_nat j))
               results).
Proof.
  intros Hix Hlen Hcontent Hd Hk.
  destruct (search_aligned self ix q k Hix Hlen Hcontent Hd Hk)
    as (results & Hsearch & Hhits & _).
  set (R := rank (scores ix (normalize_L2 q))) in *.
  exists results. split; [exact Hsearch|].
  assert (Hlenres : List.length results
                    = List.length (List.filter (fun h : hit => Qlt_bool 0 h.1)
                                               (firstn (Z.to_nat k) R))).
  { rewrite <- Hhits. symmetry. apply length_map. }
  assert (Hmem : forall c, c ∈ results ->
                   hit_of c ∈ firstn (Z.to_nat k) R /\ Qlt_bool 0 (similarity c) = true).
  { intros c Hc.
    assert (Hin : In (hit_of c) (map hit_of results)).
    { apply in_map, list_elem_of_In, Hc. }
    rewrite Hhits in Hin. apply List.filter_In in Hin as [Hin Hpos].
    split; [apply list_elem_of_In, Hin | exact Hpos]. }
  split; [|split; [|split]].
  - rewrite Hlenres.
    etransitivity; [apply sublist_length, filter_sublist|].
    rewrite length_take. lia.
  - apply Forall_forall. intros c Hc. destruct (Hmem c Hc) as [Hin Hpos].
    assert (HinR : hit_of c ∈ scores ix (normalize_L2 q)).
    { rewrite <- (rank_perm (scores ix (normalize_L2 q))).
      eapply elem_of_sublist; [exact Hin | apply sublist_take]. }
    apply scores_elem in HinR as (j & v & Hv & Heq).
    unfold hit_of in Heq. injection Heq as Hsim Hid.
    split; [apply Qlt_bool_iff, Hpos|].
    split; [lia|]. exists v. rewrite Hid, Nat2Z.id. split; assumption.
  - intros i j ci cj Hij Hi Hj.
    assert (Hlt : hit_lt (hit_of ci) (hit_of cj)).
    { eapply (sorted_lookup hit_lt (map hit_of results) i j);
        [eapply search_ranked; exact Hsearch | exact Hij
        | apply lookup_map_hit_of, Hi | apply lookup_map_hit_of, Hj]. }
    split; [apply (hit_lt_sim _ _ Hlt) | apply (hit_lt_tie _ _ Hlt)].
  - intros j v Hv Hpos Hmissing.
    set (h := (fvec_inner_product (normalize_L2 q) v, Z.of_nat j)).
    assert (HhR : h ∈ R).
    { unfold R. rewrite (rank_perm (scores ix (normalize_L2 q))).
      eapply list_elem_of_lookup_2, scores_lookup, Hv. }
    assert (Hnot : h ∉ firstn (Z.to_nat k) R).
    { intros Hin.
      assert (Hinf : In h (map hit_of results)).
      { rewrite Hhits. apply List.filter_In.
        split; [apply list_elem_of_In, Hin | apply Qlt_bool_iff, Hpos]. }
      apply in_map_iff in Hinf as (c & Hc & Hcin).
      apply (Hmissing c); [apply list_elem_of_In, Hcin|].
      unfold hit_of, h in Hc. congruence. }
    rewrite <- (take_drop (Z.to_nat k) R) in HhR.
    apply elem_of_app in HhR as [HhR | HhR]; [contradiction|].
    assert (Hsorted : StronglySorted hit_lt (firstn (Z.to_nat k) R ++ drop (Z.to_nat k) R)).
    { rewrite take_drop. apply rank_scores_strict. }
    pose proof (positive_prefix h _ _ Hsorted HhR Hpos) as Htop.
    assert (Hall : List.filter (fun h : hit => Qlt_bool 0 h.1) (firstn (Z.to_nat k) R)
                   = firstn (Z.to_nat k) R).
    { apply filter_all. eapply Forall_impl; [exact Htop|].
      intros t [_ Ht]. exact Ht. }
    rewrite Hall in Hhits, Hlenres. split.
    + rewrite Hlenres. apply length_take_le.
      destruct (Nat.le_gt_cases (Z.to_nat k) (List.length R)) as [Hle | Hgt];
        [exact Hle|].
      rewrite drop_ge in HhR by lia. apply elem_of_nil in HhR. contradiction.
    + apply Forall_forall. intros c Hc.
      rewrite Forall_forall in Htop.
      apply Htop, (Hmem c Hc).
Qed.

End RankedSearch.

Lemma search_top_k_ranked_witness :
  VectorStore.index tie_store
    = Some {| Faiss.d := 2; Faiss.xb := [[1; 0]; [0; 1]; [1; 0]]%Q |} /\
  List.length (VectorStore.metadata tie_store) = 3%nat /\
  Forall (fun m => dict_contains "content" m = true) (VectorStore.metadata tie_store) /\
  List.length [1; 0]%Q = 2%nat /\
  0 < 2 /\
  exists results,
    @VectorStore.search Fixtures.axis_kernel tie_store [1; 0]%Q 2 = Ok results /\
    map id results = [0; 2].
Proof.
  assert (H1 : VectorStore.index tie_store
               = Some {| Faiss.d := 2; Faiss.xb := [[1; 0]; [0; 1]; [1; 0]]%Q |})
    by reflexivity.
  assert (H2 : List.length (VectorStore.metadata tie_store) = 3%nat) by reflexivity.
  assert (H3 : Forall (fun m => dict_contains "content" m = true)
                      (VectorStore.metadata tie_store))
    by (repeat constructor).
  assert (H4 : List.length [1; 0]%Q = 2%nat) by reflexivity.
  assert (H5 : 0 < 2) by reflexivity.
  repeat (split; [assumption|]).
  destruct (@search_top_k_ranked Fixtures.axis_kernel tie_store _ [1; 0]%Q 2
              H1 H2 H3 H4 H5) as (results & Hs & _).
  exists results. split; [exact Hs|].
  vm_compute in Hs. injection Hs as <-. reflexivity.
Defined.

(** ** Threshold-with-fallback retrieval *)

Section Retrieval.
Context `{FloatKernel}.
Import Faiss RankFacts.

Lemma slice_to_nonneg {A} (l : list A) (n : Z) :
  0 <= n -> slice_to l n = firstn (Z.to_nat n) l.
Proof.
  intros Hn. unfold slice_to.
  destruct (n <? 0) eqn:Hb; [apply Z.ltb_lt in Hb; lia | reflexivity].
Qed.

Lemma sorted_map_inv {A B} (f : A -> B) (R : B -> B -> Prop) (l : list A) :
  StronglySorted R (map f l) -> StronglySorted (fun x y => R (f x) (f y)) l.
Proof.
  induction l as [|x l IH]; simpl; intros Hs; [constructor|].
  apply StronglySorted_inv in Hs as [Hs Hall].
  constructor; [apply IH, Hs|].
  rewrite Forall_forall in Hall. apply Forall_forall. intros y Hy.
  apply Hall, list_elem_of_In, in_map, list_elem_of_In, Hy.
Qed.

Lemma sorted_weaken {A} (R1 R2 : A -> A -> Prop) (l : list A) :
  (forall x y, R1 x y -> R2 x y) -> StronglySorted R1 l -> StronglySorted R2 l.
Proof.
  intros Himp. induction 1 as [|x l _ IH Hall]; constructor; [exact IH|].
  eapply Forall_impl; [exact Hall|]. intros y. apply Himp.
Qed.

Lemma search_descending self q k results :
  VectorStore.search self q k = Ok results -> descending results.
Proof.
  intros Hs. apply search_ranked, sorted_map_inv in Hs.
  eapply sorted_weaken; [|exact Hs].
  intros c1 c2. apply hit_lt_sim.
Qed.

(** The retriever as the four steps: over-fetch, filter, fall back once to
    the two best unfiltered candidates, truncate. *)
Lemma retrieve_steps self claim top_k threshold initial :
  0 <= top_k ->
  VectorStore.search (EnhancedFactRetriever.vector_store self)
    (generate_embedding (EnhancedFactRetriever.embedding_generator self) claim)
    (top_k * 2) = Ok initial ->
  EnhancedFactRetriever.retrieve_similar_facts self claim (Some top_k) (Some threshold)
  = Ok (firstn (Z.to_nat top_k)
          (match passing threshold initial with
           | [] => firstn 2 initial
           | _ :: _ => passing threshold initial
           end)).
Proof.
  intros Hk Hs. unfold EnhancedFactRetriever.retrieve_similar_facts. simpl.
  rewrite Hs. simpl. rewrite slice_to_nonneg by exact Hk.
  fold (passing threshold initial).
  destruct (passing threshold initial) as [|c cs] eqn:Hp; simpl; [|reflexivity].
  destruct initial; reflexivity.
Qed.

Lemma filter_zip_fst_length {A B} (p : A -> bool) (l : list A) (k : list B) :
  List.length l = List.length k ->
  List.length (List.filter (fun h : A * B => p h.1) (zip l k))
  = List.length (List.filter p l).
Proof.
  revert k. induction l as [|a l IH]; intros [|b k]; simpl; try discriminate;
    [reflexivity|].
  intros [= Hlen]. destruct (p a); simpl; rewrite (IH k Hlen); reflexivity.
Qed.

Lemma filter_fmap_length {A B} (p : B -> bool) (f : A -> B) (l : list A) :
  List.length (List.filter p (f <$> l))
  = List.length (List.filter (fun x => p (f x)) l).
Proof.
  induction l as [|a l IH]; [reflexivity|].
  rewrite fmap_cons. simpl.
  destruct (p (f a)); simpl; rewrite IH; reflexivity.
Qed.

Lemma positive_scores_length ix x :
  List.length (List.filter (fun h : hit => Qlt_bool 0 h.1) (rank (scores ix x)))
  = List.length (List.filter (fun v => Qlt_bool 0 (fvec_inner_product x v)) (xb ix)).
Proof.
  rewrite (filter_length_perm _ _ _ (rank_perm (scores ix x))).
  unfold scores.
  rewrite (filter_zip_fst_length (fun s => Qlt_bool 0 s))
    by (rewrite length_labels, length_fmap; reflexivity).
  apply filter_fmap_length.
Qed.

End Retrieval.

Section RetrievalPolicy.
Context `{FloatKernel}.
Import Faiss RankFacts EnhancedFactRetriever.

Lemma below_threshold_none_passing ix q (threshold : Q) initial :
  map hit_of initial `sublist_of` rank (scores ix q) ->
  Forall (fun v => (fvec_inner_product q v < threshold)%Q) (xb ix) ->
  passing threshold initial = [].
Proof.
  intros Hsub Hbelow. apply filter_none, Forall_forall. intros c Hc.
  assert (Hin : hit_of c ∈ scores ix q).
  { rewrite <- (rank_perm (scores ix q)).
    eapply elem_of_sublist; [|exact Hsub].
    apply list_elem_of_In, in_map, list_elem_of_In, Hc. }
  apply scores_elem in Hin as (j & v & Hv & Heq).
  unfold hit_of in Heq. injection Heq as Hsim _.
  rewrite Forall_forall in Hbelow.
  specialize (Hbelow v (list_elem_of_lookup_2 _ _ _ Hv)).
  rewrite Hsim.
  destruct (Qle_bool threshold (fvec_inner_product q v)) eqn:Hb; [|reflexivity].
  apply Qle_bool_iff in Hb. exfalso. exact (Qlt_not_le _ _ Hbelow Hb).
Qed.

(** C1 (amended). For every claim and every [top_k >= 0], the retriever
    queries the index for [2 * top_k] candidates, keeps those whose
    similarity reaches the threshold and, when none does, falls back once
    to the two best unfiltered candidates; the outcome of either branch is
    cut to at most [top_k] entries, in the order of the search, which is by
    similarity descending. In particular, on an aligned index of exactly
    three records that are all below the threshold, retrieval with
    [top_k = 5] returns [min 2 p] candidates, where [p] is the number of
    records whose similarity to the query is strictly positive: exactly two
    as soon as two records have a positive similarity. *)
Theorem retrieve_threshold_with_fallback (self : EnhancedFactRetriever.t)
    (claim : string) (top_k : Z) (threshold : Q) :
  0 <= top_k ->
  let q := generate_embedding (embedding_generator self) claim in
  exists initial result,
    VectorStore.search (vector_store self) q (top_k * 2) = Ok initial /\
    retrieve_similar_facts self claim (Some top_k) (Some threshold) = Ok result /\
    (passing threshold initial <> [] ->
     result = firstn (Z.to_nat top_k) (passing threshold initial)) /\
    (passing threshold initial = [] ->
     result = firstn (Z.to_nat top_k) (firstn 2 initial)) /\
    (List.length result <= Z.to_nat top_k)%nat /\
    result `sublist_of` initial /\
    descending result /\
    (forall ix,
        VectorStore.index (vector_store self) = Some ix ->
        List.length (VectorStore.metadata (vector_store self)) = ntotal ix ->
        Forall (fun m => dict_contains "content" m = true)
               (VectorStore.metadata (vector_store self)) ->
        List.length q = d ix ->
        ntotal ix = 3%nat ->
        top_k = 5 ->
        Forall (fun v => (fvec_inner_product (normalize_L2 q) v < threshold)%Q)
               (xb ix) ->
        List.length result
        = Nat.min 2 (List.length
                       (List.filter
                          (fun v => Qlt_bool 0 (fvec_inner_product (normalize_L2 q) v))
                          (xb ix)))).
Proof.
  intros Hk q.
  destruct (search_total (vector_store self) q (top_k * 2)) as [initial Hs].
  pose proof (retrieve_steps self claim top_k threshold initial Hk Hs) as Hr.
  eexists initial, _. split; [exact Hs|]. split; [exact Hr|].
  assert (Hsub : match passing threshold initial with
                 | [] => firstn 2 initial
                 | _ :: _ => passing threshold initial
                 end `sublist_of` initial).
  { destruct (passing threshold initial) eqn:Hp;
      [apply sublist_take | rewrite <- Hp; apply filter_sublist]. }
  split; [|split; [|split; [|split; [|split]]]].
  - intros Hne. destruct (passing threshold initial); [contradiction | reflexivity].
  - intros ->. reflexivity.
  - rewrite length_take. lia.
  - etransitivity; [apply sublist_take | exact Hsub].
  - eapply sorted_sublist; [|eapply search_descending; exact Hs].
    etransitivity; [apply sublist_take | exact Hsub].
  - intros ix Hix Hlen Hcontent Hd Hn -> Hbelow.
    destruct (search_aligned (vector_store self) ix q (5 * 2) Hix Hlen Hcontent Hd)
      as (initial' & Hs' & Hhits & _); [lia|].
    assert (initial' = initial) as -> by congruence.
    assert (Hnone : passing threshold initial = []).
    { eapply below_threshold_none_passing; [|exact Hbelow].
      eapply search_sublist; eassumption. }
    rewrite Hnone.
    assert (Hall : firstn (Z.to_nat (5 * 2)) (rank (scores ix (normalize_L2 q)))
                   = rank (scores ix (normalize_L2 q))).
    { apply take_ge. rewrite (rank_perm (scores ix (normalize_L2 q))).
      unfold scores. rewrite length_zip_with, length_fmap, length_labels.
      unfold ntotal in *. rewrite Hn. change (Z.to_nat (5 * 2)) with 10%nat. lia. }
    rewrite Hall in Hhits.
    rewrite <- positive_scores_length, <- Hhits, length_map.
    rewrite !length_take. change (Z.to_nat 5) with 5%nat. lia.
Qed.

End RetrievalPolicy.

Lemma retrieve_threshold_with_fallback_witness :
  0 <= 5 /\
  exists result,
    @EnhancedFactRetriever.retrieve_similar_facts Fixtures.axis_kernel
      tie_retriever "x" (Some 5) (Some (2 # 1)%Q) = Ok result /\
    List.length result = 2%nat.
Proof.
  assert (H0 : 0 <= 5) by (intros Hc; discriminate Hc).
  split; [exact H0|].
  destruct (@retrieve_threshold_with_fallback Fixtures.axis_kernel
              tie_retriever "x" 5 (2 # 1)%Q H0)
    as (initial & result & _ & Hr & _ & _ & _ & _ & _ & Hexample).
  exists result. split; [exact Hr|].
  rewrite (Hexample {| Faiss.d := 2; Faiss.xb := [[1; 0]; [0; 1]; [1; 0]]%Q |}).
  - reflexivity.
  - reflexivity.
  - reflexivity.
  - repeat constructor.
  - reflexivity.
  - reflexivity.
  - reflexivity.
  - repeat constructor.
Defined.

(** C1, counterexample: an aligned index of exactly three records, all
    below the threshold [0.6]; retrieval with [top_k = 5] returns no
    candidate at all, not two. *)
Lemma retrieve_fallback_counterexample :
  VectorStore.index opposed_store
    = Some {| Faiss.d := 2; Faiss.xb := [[-1; 0]; [0; 1]; [0; -1]]%Q |} /\
  List.length (VectorStore.metadata opposed_store) = 3%nat /\
  Forall (fun v => (Fixtures.dot (@normalize_L2 Fixtures.axis_kernel [1; 0]%Q) v
                    < AppConfig.SIMILARITY_THRESHOLD)%Q)
         [[-1; 0]; [0; 1]; [0; -1]]%Q /\
  @EnhancedFactRetriever.retrieve_similar_facts Fixtures.axis_kernel
    opposed_retriever "x" (Some 5) (Some AppConfig.SIMILARITY_THRESHOLD) = Ok [] /\
  ~ (exists result,
        @EnhancedFactRetriever.retrieve_similar_facts Fixtures.axis_kernel
          opposed_retriever "x" (Some 5) (Some AppConfig.SIMILARITY_THRESHOLD)
        = Ok result /\
        List.length result = 2%nat).
Proof.
  split; [reflexivity|]. split; [reflexivity|].
  split; [repeat constructor|].
  split; [reflexivity|].
  intros (result & Hr & Hlen).
  vm_compute in Hr. injection Hr as <-. discriminate Hlen.
Qed.

(** ** Guards that return instead of raising *)

Section Guards.
Context `{FloatKernel}.
Import Faiss EnhancedFactRetriever.

(** C4 (amended). For every initialised index of dimension [D] and every
    query whose length differs from [D], [search] returns the empty list
    as a normal result; no error is raised. The function only reads the
    store, so the index is as it was. *)
Theorem search_dimension_mismatch_empty (self : VectorStore.t) (ix : IndexFlatIP)
    (q : vector) (k : Z) :
  VectorStore.index self = Some ix ->
  List.length q <> d ix ->
  VectorStore.search self q k = Ok [].
Proof.
  intros Hix Hd. unfold VectorStore.search. rewrite Hix.
  destruct (ntotal ix =? 0)%nat; [reflexivity|].
  destruct (List.length q =? d ix)%nat eqn:Hb; [|reflexivity].
  apply Nat.eqb_eq in Hb. contradiction.
Qed.

Lemma slice_to_nil {A} (n : Z) : slice_to (@nil A) n = [].
Proof. unfold slice_to. destruct (n <? 0); apply firstn_nil. Qed.

(** C8 (amended). The retriever does not validate [top_k]: for every
    [top_k] that is zero or negative it returns the empty list as a normal
    result, after the claim has been embedded and the index queried. *)
Theorem retrieve_nonpositive_top_k_empty (self : EnhancedFactRetriever.t)
    (claim : string) (top_k : Z) (similarity_threshold : option Q) :
  top_k <= 0 ->
  retrieve_similar_facts self claim (Some top_k) similarity_threshold = Ok [].
Proof.
  intros Hk. unfold retrieve_similar_facts. simpl.
  destruct (search_total (vector_store self)
              (generate_embedding (embedding_generator self) claim) (top_k * 2))
    as [initial Hs].
  rewrite Hs. simpl.
  apply search_hits in Hs as [-> | (ix & _ & _ & Hpos & _)]; [|lia].
  simpl. rewrite slice_to_nil. reflexivity.
Qed.

End Guards.

Lemma search_dimension_mismatch_empty_witness :
  VectorStore.index tie_store
    = Some {| Faiss.d := 2; Faiss.xb := [[1; 0]; [0; 1]; [1; 0]]%Q |} /\
  List.length [1; 0; 0]%Q <> 2%nat /\
  @VectorStore.search Fixtures.axis_kernel tie_store [1; 0; 0]%Q 3 = Ok [].
Proof.
  assert (H1 : VectorStore.index tie_store
               = Some {| Faiss.d := 2; Faiss.xb := [[1; 0]; [0; 1]; [1; 0]]%Q |})
    by reflexivity.
  assert (H2 : List.length [1; 0; 0]%Q <> 2%nat) by (intros Hc; discriminate Hc).
  split; [exact H1|]. split; [exact H2|].
  exact (@search_dimension_mismatch_empty Fixtures.axis_kernel tie_store _
           [1; 0; 0]%Q 3 H1 H2).
Defined.

(** C4, counterexample: a query of length 3 against an index of
    dimension 2 returns normally. *)
Lemma search_dimension_mismatch_counterexample :
  VectorStore.index tie_store
    = Some {| Faiss.d := 2; Faiss.xb := [[1; 0]; [0; 1]; [1; 0]]%Q |} /\
  List.length [1; 0; 0]%Q <> 2%nat /\
  ~ (exists e,
        @VectorStore.search Fixtures.axis_kernel tie_store [1; 0; 0]%Q 3 = Raise e).
Proof.
  split; [reflexivity|]. split; [intros Hc; discriminate Hc|].
  intros [e He]. vm_compute in He. discriminate He.
Qed.

Lemma retrieve_nonpositive_top_k_empty_witness :
  0 <= 0 /\
  @EnhancedFactRetriever.retrieve_similar_facts Fixtures.axis_kernel
    tie_retriever "x" (Some 0) None = Ok [].
Proof.
  assert (H0 : 0 <= 0) by (intros Hc; discriminate Hc).
  split; [exact H0|].
  exact (@retrieve_nonpositive_top_k_empty Fixtures.axis_kernel tie_retriever
           "x" 0 None H0).
Defined.

(** C8, counterexample: [top_k = 0] and [top_k = -3] both return normally. *)
Lemma retrieve_nonpositive_top_k_counterexample :
  ~ (exists e,
        @EnhancedFactRetriever.retrieve_similar_facts Fixtures.axis_kernel
          tie_retriever "x" (Some 0) None = Raise e) /\
  ~ (exists e,
        @EnhancedFactRetriever.retrieve_similar_facts Fixtures.axis_kernel
          tie_retriever "x" (Some (-3)) None = Raise e).
Proof.
  split; intros [e He]; vm_compute in He; discriminate He.
Qed.

(** ** Batch insertion *)

Section Insert.
Context `{FloatKernel}.
Import Faiss.

Lemma ndarray_row_length (a : ndarray) (v : vector) :
  ndarray_wf a -> v ∈ rows a -> List.length v = shape1 a.
Proof.
  unfold ndarray_wf. rewrite Forall_forall. intros Hwf Hv. apply Hwf, Hv.
Qed.

(** C5. On an index of dimension [D], a batch whose number of vectors
    differs from its number of records, or one of whose vectors has a
    length other than [D], is rejected with a [ValueError] (the code's
    error for a dimension or count mismatch) and the store is left as it
    was: same index, same count, same metadata. In particular a batch with
    a vector of length [D + 1] is rejected as a whole. *)
Theorem add_embeddings_atomic_guard (self : VectorStore.t) (ix : IndexFlatIP)
    (embeddings : ndarray) (metadata : list pydict) :
  VectorStore.index self = Some ix ->
  ndarray_wf embeddings ->
  List.length (rows embeddings) <> List.length metadata \/
  (exists v, v ∈ rows embeddings /\ List.length v <> d ix) ->
  exists msg,
    VectorStore.add_embeddings self embeddings metadata
    = (self, Raise (Exn ValueError msg)) /\
    VectorStore.get_stats (VectorStore.add_embeddings self embeddings metadata).1
    = VectorStore.get_stats self.
Proof.
  intros Hix Hwf Hbad. unfold VectorStore.add_embeddings. rewrite Hix.
  destruct (List.length (rows embeddings) =? List.length metadata)%nat eqn:Hlen;
    simpl; [|eexists; split; reflexivity].
  apply Nat.eqb_eq in Hlen.
  destruct Hbad as [Hne | (v & Hv & Hd)]; [contradiction|].
  destruct (shape1 embeddings =? d ix)%nat eqn:Hs; simpl;
    [|eexists; split; reflexivity].
  apply Nat.eqb_eq in Hs.
  rewrite (ndarray_row_length embeddings v Hwf Hv) in Hd. contradiction.
Qed.


(** Whatever the outcome, the metadata list stays aligned with the index. *)
Lemma add_embeddings_keeps_alignment (self : VectorStore.t) (ix : IndexFlatIP)
    (embeddings : ndarray) (metadata : list pydict) :
  VectorStore.index self = Some ix ->
  List.length (VectorStore.metadata self) = ntotal ix ->
  exists ix',
    VectorStore.index (VectorStore.add_embeddings self embeddings metadata).1
    = Some ix' /\
    List.length
      (VectorStore.metadata (VectorStore.add_embeddings self embeddings metadata).1)
    = ntotal ix'.
Proof.
  intros Hix Halign. unfold VectorStore.add_embeddings. rewrite Hix.
  destruct (List.length (rows embeddings) =? List.length metadata)%nat eqn:Hlen;
    simpl; [|exists ix; split; assumption].
  destruct (shape1 embeddings =? d ix)%nat; simpl; [|exists ix; split; assumption].
  apply Nat.eqb_eq in Hlen.
  eexists. split; [reflexivity|]. simpl.
  unfold ntotal, Faiss.add. simpl.
  rewrite !length_app, !length_map. unfold ntotal in Halign. lia.
Qed.

End Insert.

Lemma add_embeddings_atomic_guard_witness :
  VectorStore.index tie_store
    = Some {| Faiss.d := 2; Faiss.xb := [[1; 0]; [0; 1]; [1; 0]]%Q |} /\
  ndarray_wf {| shape1 := 3; rows := [[0; 0; 1]]%Q |} /\
  (exists v, v ∈ [[0; 0; 1]]%Q /\ List.length v <> 2%nat) /\
  (@VectorStore.add_embeddings Fixtures.axis_kernel tie_store
     {| shape1 := 3; rows := [[0; 0; 1]]%Q |} [Fixtures.doc "fourth" "D"]).1
  = tie_store.
Proof.
  assert (H1 : VectorStore.index tie_store
               = Some {| Faiss.d := 2; Faiss.xb := [[1; 0]; [0; 1]; [1; 0]]%Q |})
    by reflexivity.
  assert (H2 : ndarray_wf {| shape1 := 3; rows := [[0; 0; 1]]%Q |})
    by (repeat constructor).
  assert (H3 : exists v, v ∈ [[0; 0; 1]]%Q /\ List.length v <> 2%nat).
  { exists [0; 0; 1]%Q. split; [constructor | intros Hc; discriminate Hc]. }
  split; [exact H1|]. split; [exact H2|]. split; [exact H3|].
  destruct (@add_embeddings_atomic_guard Fixtures.axis_kernel tie_store _
              {| shape1 := 3; rows := [[0; 0; 1]]%Q |} [Fixtures.doc "fourth" "D"]
              H1 H2 (or_intror H3)) as (msg & Heq & _).
  rewrite Heq. reflexivity.
Defined.

(** ** Persistence *)

Section Persistence.
Context `{FloatKernel}.
Import Faiss.

Lemma search_depends_on_index_and_metadata (s1 s2 : VectorStore.t) q k :
  VectorStore.index s1 = VectorStore.index s2 ->
  VectorStore.metadata s1 = VectorStore.metadata s2 ->
  VectorStore.search s1 q k = VectorStore.search s2 q k.
Proof.
  intros Hix Hm. unfold VectorStore.search. rewrite Hix, Hm. reflexivity.
Qed.

(** C6 (amended). [load] performs no consistency check. When the index
    file and the metadata file can both be read, it succeeds and the store
    holds exactly the stored vectors and the stored records, whatever
    their counts; when the metadata file is absent it succeeds and keeps
    the metadata it had. It raises only when the index file is missing or
    when a file does not hold what is expected there. *)
Theorem load_without_count_check (self : VectorStore.t) (fs : filesystem) :
  (forall ix m,
      fs !! VectorStore.index_path self = Some (FaissFile ix) ->
      fs !! VectorStore.metadata_path self = Some (JsonFile m) ->
      VectorStore.load self fs
      = ({| VectorStore.index_path := VectorStore.index_path self;
            VectorStore.metadata_path := VectorStore.metadata_path self;
            VectorStore.index := Some ix;
            VectorStore.metadata := m |}, Ok tt)) /\
  (forall ix,
      fs !! VectorStore.index_path self = Some (FaissFile ix) ->
      fs !! VectorStore.metadata_path self = None ->
      VectorStore.load self fs
      = ({| VectorStore.index_path := VectorStore.index_path self;
            VectorStore.metadata_path := VectorStore.metadata_path self;
            VectorStore.index := Some ix;
            VectorStore.metadata := VectorStore.metadata self |}, Ok tt)) /\
  (forall e,
      (VectorStore.load self fs).2 = Raise e ->
      fs !! VectorStore.index_path self = None \/
      (exists f, fs !! VectorStore.index_path self = Some f /\
                 forall ix, f <> FaissFile ix) \/
      (exists f, fs !! VectorStore.metadata_path self = Some f /\
                 forall m, f <> JsonFile m)).
Proof.
  unfold VectorStore.load. split; [|split].
  - intros ix m -> ->. reflexivity.
  - intros ix -> ->. reflexivity.
  - intros e.
    destruct (fs !! VectorStore.index_path self) as [[ix| |]|] eqn:Hi.
    + destruct (fs !! VectorStore.metadata_path self) as [[| |]|] eqn:Hm;
        simpl; try discriminate; intros _; right; right;
        eexists; (split; [reflexivity|]); intros m; discriminate.
    + intros _. right. left. eexists. split; [reflexivity|]. intros ix. discriminate.
    + intros _. right. left. eexists. split; [reflexivity|]. intros ix. discriminate.
    + intros _. left. reflexivity.
Qed.

(** C9. Saving a store whose metadata is JSON-serialisable (two distinct
    paths) and loading the two files into a fresh store succeeds, and the
    reloaded store answers every query, for every [k], exactly as the
    original does: same ids, same similarities, same contents. *)
Theorem reload_search_identical (self : VectorStore.t) (ix : IndexFlatIP)
    (fs : filesystem) :
  VectorStore.index self = Some ix ->
  VectorStore.index_path self <> VectorStore.metadata_path self ->
  json_serializable (VectorStore.metadata self) = true ->
  exists fs' self',
    VectorStore.save self fs = (fs', Ok tt) /\
    VectorStore.load
      (VectorStore.__init__ (VectorStore.index_path self)
                            (VectorStore.metadata_path self)) fs'
    = (self', Ok tt) /\
    VectorStore.get_stats self' = VectorStore.get_stats self /\
    forall q k, VectorStore.search self' q k = VectorStore.search self q k.
Proof.
  intros Hix Hpaths Hjson.
  unfold VectorStore.save. rewrite Hix, Hjson.
  eexists _, _. split; [reflexivity|].
  unfold VectorStore.load, VectorStore.__init__. simpl.
  rewrite lookup_insert_ne by (intros Heq; apply Hpaths; symmetry; exact Heq).
  rewrite lookup_insert_eq, lookup_insert_eq.
  split; [reflexivity|]. split.
  - unfold VectorStore.get_stats. simpl. rewrite Hix. reflexivity.
  - intros q k. apply search_depends_on_index_and_metadata; simpl;
      [symmetry; exact Hix | reflexivity].
Qed.

End Persistence.

Lemma load_without_count_check_witness :
  mismatched_snapshot !! "faiss_index"
    = Some (FaissFile {| Faiss.d := 2; Faiss.xb := [[1; 0]; [0; 1]; [1; 0]]%Q |}) /\
  mismatched_snapshot !! "metadata.json" = Some (JsonFile [Fixtures.doc "only" "A"]) /\
  (VectorStore.load (VectorStore.__init__ "faiss_index" "metadata.json")
     mismatched_snapshot).2 = Ok tt.
Proof.
  assert (H1 : mismatched_snapshot !! "faiss_index"
               = Some (FaissFile {| Faiss.d := 2;
                                    Faiss.xb := [[1; 0]; [0; 1]; [1; 0]]%Q |}))
    by reflexivity.
  assert (H2 : mismatched_snapshot !! "metadata.json"
               = Some (JsonFile [Fixtures.doc "only" "A"]))
    by reflexivity.
  split; [exact H1|]. split; [exact H2|].
  destruct (load_without_count_check
              (VectorStore.__init__ "faiss_index" "metadata.json")
              mismatched_snapshot) as [Hboth _].
  rewrite (Hboth _ _ H1 H2). reflexivity.
Defined.

(** C6, counterexample: the stored vector count is 3, the stored metadata
    count is 1, and [load] succeeds with a store that reports both. *)
Lemma load_count_mismatch_counterexample :
  (VectorStore.load (VectorStore.__init__ "faiss_index" "metadata.json")
     mismatched_snapshot).2 = Ok tt /\
  VectorStore.get_stats
    (VectorStore.load (VectorStore.__init__ "faiss_index" "metadata.json")
       mismatched_snapshot).1
  = [("status", PyStr "loaded"); ("total_entries", PyInt 3);
     ("embedding_dim", PyInt 2); ("metadata_count", PyInt 1)] /\
  ~ (exists e,
        (VectorStore.load (VectorStore.__init__ "faiss_index" "metadata.json")
           mismatched_snapshot).2 = Raise e).
Proof.
  split; [reflexivity|]. split; [reflexivity|].
  intros [e He]. discriminate He.
Qed.

Lemma reload_search_identical_witness :
  VectorStore.index tie_store
    = Some {| Faiss.d := 2; Faiss.xb := [[1; 0]; [0; 1]; [1; 0]]%Q |} /\
  VectorStore.index_path tie_store <> VectorStore.metadata_path tie_store /\
  json_serializable (VectorStore.metadata tie_store) = true /\
  exists fs' self',
    VectorStore.save tie_store ∅ = (fs', Ok tt) /\
    VectorStore.load (VectorStore.__init__ "faiss_index" "metadata.json") fs'
    = (self', Ok tt) /\
    @VectorStore.search Fixtures.axis_kernel self' [1; 0]%Q 2
    = @VectorStore.search Fixtures.axis_kernel tie_store [1; 0]%Q 2.
Proof.
  assert (H1 : VectorStore.index tie_store
               = Some {| Faiss.d := 2; Faiss.xb := [[1; 0]; [0; 1]; [1; 0]]%Q |})
    by reflexivity.
  assert (H2 : VectorStore.index_path tie_store <> VectorStore.metadata_path tie_store)
    by (intros Hc; discriminate Hc).
  assert (H3 : json_serializable (VectorStore.metadata tie_store) = true)
    by reflexivity.
  split; [exact H1|]. split; [exact H2|]. split; [exact H3|].
  destruct (@reload_search_identical Fixtures.axis_kernel tie_store _ ∅ H1 H2 H3)
    as (fs' & self' & Hsave & Hload & _ & Hsearch).
  exists fs', self'. split; [exact Hsave|]. split; [exact Hload|].
  apply Hsearch.
Defined.

(** ** Verifier failures *)

Section Verifier.
Context `{JsonKernel}.
Import GroqClient.

Lemma dict_get_set_eq key v d : dict_get key (dict_set key v d) = Some v.
Proof.
  induction d as [|[k w] d IH]; simpl.
  - rewrite String.eqb_refl. reflexivity.
  - destruct (String.eqb key k) eqn:Hk; simpl; rewrite Hk; [reflexivity | exact IH].
Qed.

Lemma dict_get_set_ne key key' v d :
  key <> key' -> dict_get key (dict_set key' v d) = dict_get key d.
Proof.
  intros Hne. induction d as [|[k w] d IH]; simpl.
  - destruct (String.eqb key key') eqn:Hk; [|reflexivity].
    apply String.eqb_eq in Hk. contradiction.
  - destruct (String.eqb key' k) eqn:Hk'; simpl.
    + apply String.eqb_eq in Hk'. subst k.
      destruct (String.eqb key key') eqn:Hk; [|reflexivity].
      apply String.eqb_eq in Hk. contradiction.
    + destruct (String.eqb key k); [reflexivity | exact IH].
Qed.

Lemma dict_contains_set key key' v d :
  dict_contains key d = true -> dict_contains key (dict_set key' v d) = true.
Proof.
  unfold dict_contains. intros Hd.
  destruct (decide (key = key')) as [-> | Hne].
  - rewrite dict_get_set_eq. reflexivity.
  - rewrite dict_get_set_ne by exact Hne. exact Hd.
Qed.

Lemma fill_required_keeps key field d :
  dict_contains key d = true -> dict_contains key (fill_required d field) = true.
Proof.
  intros Hd. unfold fill_required.
  destruct (dict_contains field d); [exact Hd | apply dict_contains_set, Hd].
Qed.

Lemma fill_required_adds field d : dict_contains field (fill_required d field) = true.
Proof.
  unfold fill_required. destruct (dict_contains field d) eqn:Hd; [exact Hd|].
  unfold dict_contains. rewrite dict_get_set_eq. reflexivity.
Qed.

Lemma fill_all_required d : well_shaped (foldl fill_required d required).
Proof.
  unfold well_shaped, required. simpl.
  repeat constructor;
    repeat (first [apply fill_required_adds | apply fill_required_keeps]).
Qed.

Lemma parse_attempt_well_shaped text facts r :
  parse_attempt text facts = Ok r -> well_shaped r.
Proof.
  unfold parse_attempt.
  destruct (negb _ && negb _); [|discriminate].
  destruct (json_loads _) as [d|]; simpl; [|discriminate].
  intros [= <-].
  pose proof (fill_all_required d) as Hw. unfold well_shaped in *.
  eapply Forall_impl; [exact Hw|]. intros field Hf. simpl in Hf.
  do 2 apply dict_contains_set.
  destruct (dict_contains "semantic_matches" _); [exact Hf|].
  apply dict_contains_set, Hf.
Qed.

Lemma parse_attempt_no_json text facts :
  str_find "{" text = -1 \/ str_rfind "}" text = -1 ->
  parse_attempt text facts = Raise (Exn ValueError "No JSON found in response").
Proof.
  intros Hno. unfold parse_attempt.
  destruct Hno as [-> | ->]; simpl; [reflexivity|].
  rewrite andb_false_r. reflexivity.
Qed.

(** C7 (amended). [fact_check_claim] never raises and its result always
    carries the four fields. When the request fails (transport, status or
    body), the result is UNVERIFIABLE with confidence [very_low], reasoning
    ["Service error: "] followed by the error text, and no key evidence.
    When the reply arrives but no JSON object can be parsed out of its
    text, the result is UNVERIFIABLE with confidence [low], reasoning
    ["Analysis error: "] followed by the error text, and no key evidence. *)
Theorem fact_check_claim_degrades (self : GroqClient.t) (claim : string)
    (retrieved_facts : list candidate) :
  exists r,
    fact_check_claim self claim retrieved_facts = Ok r /\
    well_shaped r /\
    (forall e,
        complete self claim retrieved_facts = Raise e ->
        degraded "very_low" ("Service error: " +:+ exn_msg e) r) /\
    (forall text e,
        complete self claim retrieved_facts = Ok text ->
        parse_attempt text retrieved_facts = Raise e ->
        degraded "low" ("Analysis error: " +:+ exn_msg e) r).
Proof.
  unfold fact_check_claim.
  destruct (complete self claim retrieved_facts) as [text|e] eqn:Hc.
  - eexists. split; [reflexivity|].
    unfold _parse_enhanced_response.
    destruct (parse_attempt text retrieved_facts) as [r|e] eqn:Hp.
    + split; [eapply parse_attempt_well_shaped; exact Hp|].
      split; [intros e; discriminate|].
      intros text' e' [= <-]. rewrite Hp. discriminate.
    + split; [repeat constructor|].
      split; [intros e'; discriminate|].
      intros text' e' [= <-]. rewrite Hp. intros [= <-].
      repeat split.
  - eexists. split; [reflexivity|].
    split; [repeat constructor|].
    split; [|intros text e'; discriminate].
    intros e' [= <-]. repeat split.
Qed.

End Verifier.

Lemma fact_check_claim_degrades_witness :
  GroqClient.complete timeout_client "x" [] = Raise (Exn RequestException "Read timed out.") /\
  exists r,
    @GroqClient.fact_check_claim rejecting_json timeout_client "x" [] = Ok r /\
    degraded "very_low" "Service error: Read timed out." r.
Proof.
  assert (H1 : GroqClient.complete timeout_client "x" []
               = Raise (Exn RequestException "Read timed out."))
    by reflexivity.
  split; [exact H1|].
  destruct (@fact_check_claim_degrades rejecting_json timeout_client "x" [])
    as (r & Hr & _ & Hservice & _).
  exists r. split; [exact Hr|].
  exact (Hservice _ H1).
Defined.

(** C7, counterexample: the reply cannot be parsed (it holds no JSON
    object), the verifier call has failed, and the confidence of the
    degraded result is [low], not [very_low]. *)
Lemma fact_check_claim_parse_failure_counterexample :
  GroqClient.complete prose_client "x" [] = Ok "The claim appears to be true." /\
  @GroqClient.parse_attempt rejecting_json "The claim appears to be true." []
  = Raise (Exn ValueError "No JSON found in response") /\
  exists r,
    @GroqClient.fact_check_claim rejecting_json prose_client "x" [] = Ok r /\
    dict_get "verdict" r = Some (PyStr "UNVERIFIABLE") /\
    dict_get "confidence" r = Some (PyStr "low") /\
    dict_get "confidence" r <> Some (PyStr "very_low").
Proof.
  split; [reflexivity|]. split; [reflexivity|].
  eexists. split; [reflexivity|].
  split; [reflexivity|]. split; [reflexivity|].
  intros Hc. discriminate Hc.
Qed.

(** ** Aggregation *)

Section Aggregation.
Import FactChecker.

Lemma dict_get_default_Some key default d v :
  dict_get key d = Some v -> dict_get_default key default d = v.
Proof. unfold dict_get_default. intros ->. reflexivity. Qed.

Lemma dict_get_default_None key default d :
  dict_get key d = None -> dict_get_default key default d = default.
Proof. unfold dict_get_default. intros ->. reflexivity. Qed.

(** C2. For a non-empty sequence of per-claim results, the aggregate takes
    verdict, confidence, reasoning and key evidence from the first result
    as they are; a field the first result lacks gets its default
    (UNVERIFIABLE, low, "No reasoning provided", the empty list); and
    [claims_analyzed] lists the claim texts of all results in order, so it
    is as long as the sequence. The later results do not influence the four
    fields. *)
Theorem aggregate_takes_primary (text : string) (first : claim_result)
    (others : list claim_result) (entities : list pyval) :
  exists agg,
    _aggregate_results text (first :: others) entities = Ok agg /\
    Forall (fun fd : string * pyval =>
              (forall v, dict_get fd.1 (verification_result first) = Some v ->
                         dict_get fd.1 agg = Some v) /\
              (dict_get fd.1 (verification_result first) = None ->
               dict_get fd.1 agg = Some fd.2))
           primary_fields /\
    (exists texts,
        dict_get "claims_analyzed" agg = Some (PyList texts) /\
        texts = map (fun r => PyStr (claim r)) (first :: others) /\
        List.length texts = S (List.length others)) /\
    (forall others', exists agg',
        _aggregate_results text (first :: others') entities = Ok agg' /\
        Forall (fun fd : string * pyval => dict_get fd.1 agg' = dict_get fd.1 agg)
               primary_fields).
Proof.
  eexists. split; [reflexivity|].
  split; [|split].
  - unfold primary_fields.
    repeat constructor; simpl;
      first [ intros v Hv; rewrite (dict_get_default_Some _ _ _ _ Hv); reflexivity
            | intros Hn; rewrite (dict_get_default_None _ _ _ Hn); reflexivity ].
  - eexists. split; [reflexivity|]. split; [reflexivity|].
    simpl. rewrite length_map. reflexivity.
  - intros others'. eexists. split; [reflexivity|].
    repeat constructor.
Qed.

End Aggregation.

Lemma aggregate_takes_primary_witness :
  exists agg texts,
    FactChecker._aggregate_results "text" true_then_false [] = Ok agg /\
    dict_get "verdict" agg = Some (PyStr "TRUE") /\
    dict_get "reasoning" agg = Some (PyStr "No reasoning provided") /\
    dict_get "claims_analyzed" agg = Some (PyList texts) /\
    List.length texts = 2%nat.
Proof.
  destruct (aggregate_takes_primary "text"
              {| claim := "Railways run steam locomotives for tourism.";
                 verification_result :=
                   [("verdict", PyStr "TRUE"); ("confidence", PyStr "high")] |}
              [ {| claim := "Steel plants were closed in 2003.";
                   verification_result := [("verdict", PyStr "FALSE")] |} ]
              [])
    as (agg & Hagg & Hfields & (texts & Hget & _ & Hlen) & _).
  exists agg, texts. split; [exact Hagg|].
  apply Forall_cons in Hfields as [[Hverdict _] Hfields].
  apply Forall_cons in Hfields as [_ Hfields].
  apply Forall_cons in Hfields as [[_ Hreasoning] _].
  split; [apply Hverdict; reflexivity|].
  split; [apply Hreasoning; reflexivity|].
  split; [exact Hget | exact Hlen].
Defined.

(** ** Claim extraction and the no-claims branch *)

Section CheckClaim.
Context `{FloatKernel} `{JsonKernel}.
Import FactChecker.

Lemma retrieve_total (r : EnhancedFactRetriever.t) c top_k threshold :
  exists facts,
    EnhancedFactRetriever.retrieve_similar_facts r c top_k threshold = Ok facts.
Proof.
  unfold EnhancedFactRetriever.retrieve_similar_facts.
  destruct (search_total (EnhancedFactRetriever.vector_store r)
              (generate_embedding (EnhancedFactRetriever.embedding_generator r) c)
              (default AppConfig.TOP_K_RESULTS top_k * 2)) as [initial ->].
  simpl. eexists. reflexivity.
Qed.

Lemma fact_check_claim_total (client : GroqClient.t) c facts :
  exists r, GroqClient.fact_check_claim client c facts = Ok r.
Proof.
  unfold GroqClient.fact_check_claim.
  destruct (GroqClient.complete client c facts); eexists; reflexivity.
Qed.

Lemma verify_claim_total (self : FactChecker.t) (c : string) :
  exists vr, verify_claim self c = Ok {| claim := c; verification_result := vr |}.
Proof.
  unfold verify_claim.
  destruct (retrieve_total (retriever self) c None None) as [facts ->]. simpl.
  destruct (fact_check_claim_total (llm_client self) c facts) as [vr ->]. simpl.
  exists vr. reflexivity.
Qed.

Lemma for_each_verify_total (self : FactChecker.t) (claims : list string) :
  exists claim_results,
    for_each (verify_claim self) claims = Ok claim_results /\
    map claim claim_results = claims.
Proof.
  induction claims as [|c claims (rs & Hrs & Hmap)]; simpl.
  - exists []. split; reflexivity.
  - destruct (verify_claim_total self c) as [vr ->]. rewrite Hrs.
    eexists. split; [reflexivity|]. simpl. rewrite Hmap. reflexivity.
Qed.

Lemma extract_claims_cases `{TextKernel} (text : string) :
  let factual :=
    List.filter ClaimExtractor._is_factual_claim (map str_strip (nlp_sents text)) in
  ClaimExtractor.extract_claims text
  = match factual with
    | [] => [text]
    | _ :: _ => firstn 3 factual
    end.
Proof.
  unfold ClaimExtractor.extract_claims. simpl.
  destruct (List.filter _ _); reflexivity.
Qed.

(** C10. For every input text, [extract_claims] returns between one and
    three claims, and exactly the whole text as the single claim when no
    sentence is a factual claim. Hence [check_claim] never takes the
    no-claims branch: it verifies every extracted claim and returns the
    aggregate of the per-claim results, which has no [error] field and is
    never the fixed no-claims response. *)
Theorem check_claim_never_without_claims (self : FactChecker.t) (text : string) :
  let claims := @ClaimExtractor.extract_claims (claim_extractor self) text in
  let factual :=
    List.filter (@ClaimExtractor._is_factual_claim (claim_extractor self))
                (map (@str_strip (claim_extractor self))
                     (@nlp_sents (claim_extractor self) text)) in
  claims <> [] /\
  (List.length claims <= 3)%nat /\
  (factual = [] -> claims = [text]) /\
  exists claim_results agg,
    for_each (verify_claim self) claims = Ok claim_results /\
    map claim claim_results = claims /\
    check_claim self text = Ok agg /\
    _aggregate_results text claim_results
      (@ClaimExtractor.extract_entities (claim_extractor self) text) = Ok agg /\
    dict_get "error" agg = None /\
    agg <> _get_no_claims_response text.
Proof.
  intros claims factual.
  assert (Hcases := @extract_claims_cases (claim_extractor self) text).
  simpl in Hcases. fold claims factual in Hcases.
  assert (Hne : claims <> []).
  { rewrite Hcases. destruct factual; simpl; discriminate. }
  split; [exact Hne|]. split; [|split].
  - rewrite Hcases. destruct factual; simpl; [lia|].
    rewrite length_take. lia.
  - intros Hnone. rewrite Hcases, Hnone. reflexivity.
  - destruct (for_each_verify_total self claims) as (rs & Hrs & Hmap).
    destruct rs as [|r rs]; [simpl in Hmap; congruence|].
    assert (Hagg : exists agg,
               _aggregate_results text (r :: rs)
                 (@ClaimExtractor.extract_entities (claim_extractor self) text)
               = Ok agg /\ dict_get "error" agg = None)
      by (eexists; split; reflexivity).
    destruct Hagg as (agg & Hagg & Herr).
    assert (Hcheck : check_claim self text = Ok agg).
    { unfold check_claim. fold claims.
      destruct claims; [contradiction|]. simpl is_empty. cbv iota.
      rewrite Hrs. simpl bind. exact Hagg. }
    exists (r :: rs), agg. split; [exact Hrs|]. split; [exact Hmap|].
    split; [exact Hcheck|]. split; [exact Hagg|].
    split; [exact Herr|].
    intros ->. discriminate Herr.
Qed.

End CheckClaim.

Lemma check_claim_never_without_claims_witness :
  @ClaimExtractor.extract_claims plain_text "x marks the spot" = ["x marks the spot"] /\
  exists agg,
    @FactChecker.check_claim Fixtures.axis_kernel rejecting_json plain_checker
      "x marks the spot" = Ok agg /\
    dict_get "error" agg = None /\
    dict_get "claims_analyzed" agg = Some (PyList [PyStr "x marks the spot"]).
Proof.
  destruct (@check_claim_never_without_claims Fixtures.axis_kernel rejecting_json
              plain_checker "x marks the spot")
    as (_ & _ & Hwhole & rs & agg & _ & _ & Hcheck & _ & Herr & _).
  split; [apply Hwhole; reflexivity|].
  exists agg. split; [exact Hcheck|]. split; [exact Herr|].
  vm_compute in Hcheck. injection Hcheck as <-. reflexivity.
Defined.

(** * Further properties of the code *)

(** ** The store under batch insertion *)

Section StoreInvariants.
Context `{FloatKernel}.
Import Faiss.

Lemma add_embeddings_outcome (self : VectorStore.t) (embeddings : ndarray)
    (metadata : list pydict) :
  (exists ix,
      VectorStore.index self = Some ix /\
      List.length (rows embeddings) = List.length metadata /\
      shape1 embeddings = d ix /\
      VectorStore.add_embeddings self embeddings metadata
      = ({| VectorStore.index_path := VectorStore.index_path self;
            VectorStore.metadata_path := VectorStore.metadata_path self;
            VectorStore.index :=
              Some (Faiss.add ix (map normalize_L2 (rows embeddings)));
            VectorStore.metadata :=
              VectorStore.metadata self ++ map VectorStore.clean_meta metadata |},
         Ok tt)) \/
  (exists e, VectorStore.add_embeddings self embeddings metadata = (self, Raise e)).
Proof.
  unfold VectorStore.add_embeddings.
  destruct (VectorStore.index self) as [ix|] eqn:Hix; [|right; eexists; reflexivity].
  destruct (List.length (rows embeddings) =? List.length metadata)%nat eqn:Hlen;
    simpl; [|right; eexists; reflexivity].
  destruct (shape1 embeddings =? d ix)%nat eqn:Hs; simpl;
    [|right; eexists; reflexivity].
  apply Nat.eqb_eq in Hlen, Hs.
  left. exists ix. repeat split; assumption.
Qed.

(** The invariant of a store: an index of dimension [dim], as many metadata
    records as vectors, every vector of length [dim]. *)
Lemma add_embeddings_keeps_shape (dim : nat) (self : VectorStore.t)
    (embeddings : ndarray) (metadata : list pydict) :
  ndarray_wf embeddings ->
  (exists ix, VectorStore.index self = Some ix /\ d ix = dim /\
              List.length (VectorStore.metadata self) = ntotal ix /\
              Forall (fun v => List.length v = dim) (xb ix)) ->
  exists ix, VectorStore.index (VectorStore.add_embeddings self embeddings metadata).1
             = Some ix /\ d ix = dim /\
             List.length (VectorStore.metadata
                            (VectorStore.add_embeddings self embeddings metadata).1)
             = ntotal ix /\
             Forall (fun v => List.length v = dim) (xb ix).
Proof.
  intros Hwf (ix & Hix & Hd & Halign & Hall).
  destruct (add_embeddings_outcome self embeddings metadata)
    as [(ix' & Hix' & Hlen & Hs & ->) | (e & ->)]; simpl.
  - assert (ix' = ix) as -> by congruence.
    eexists. split; [reflexivity|]. simpl. split; [exact Hd|].
    unfold ntotal in *. simpl. split.
    + rewrite !length_app, !length_map. lia.
    + apply Forall_app. split; [exact Hall|].
      apply Forall_forall. intros v Hv.
      apply list_elem_of_In, in_map_iff in Hv as (w & <- & Hw).
      rewrite normalize_L2_length.
      unfold ndarray_wf in Hwf. rewrite Forall_forall in Hwf.
      rewrite (Hwf w) by (apply list_elem_of_In, Hw). congruence.
  - exists ix. repeat split; assumption.
Qed.

(** X1. A store that starts from [create_index dim] and is only ever
    changed by [add_embeddings], accepted or rejected, has an index of
    dimension [dim], exactly one metadata record per vector, and only
    vectors of length [dim]; [get_stats] reports the same number as
    [total_entries] and as [metadata_count]. *)
Theorem built_store_aligned (index_path metadata_path : string) (dim : nat)
    (batches : list (ndarray * list pydict)) :
  Forall (fun b => ndarray_wf b.1) batches ->
  exists ix,
    VectorStore.index (built index_path metadata_path dim batches) = Some ix /\
    d ix = dim /\
    List.length (VectorStore.metadata (built index_path metadata_path dim batches))
    = ntotal ix /\
    Forall (fun v => List.length v = dim) (xb ix) /\
    VectorStore.get_stats (built index_path metadata_path dim batches)
    = [("status", PyStr "loaded");
       ("total_entries", PyInt (Z.of_nat (ntotal ix)));
       ("embedding_dim", PyInt (Z.of_nat dim));
       ("metadata_count", PyInt (Z.of_nat (ntotal ix)))].
Proof.
  intros Hwf. unfold built.
  set (st0 := VectorStore.create_index
                (VectorStore.__init__ index_path metadata_path) dim).
  assert (Hinv : exists ix, VectorStore.index st0 = Some ix /\ d ix = dim /\
                   List.length (VectorStore.metadata st0) = ntotal ix /\
                   Forall (fun v => List.length v = dim) (xb ix)).
  { eexists. split; [reflexivity|]. repeat split. constructor. }
  clearbody st0. revert st0 Hinv.
  induction Hwf as [|b batches Hb _ IH]; intros st0 Hinv; simpl.
  - destruct Hinv as (ix & Hix & Hd & Halign & Hall).
    exists ix. repeat split; try assumption.
    unfold VectorStore.get_stats. rewrite Hix, Halign, Hd. reflexivity.
  - apply IH. apply add_embeddings_keeps_shape; assumption.
Qed.

(** X2. An accepted batch only appends: the count grows by the number of
    rows, every record already stored keeps its position (its id), its
    vector and its metadata, and row [j] of the batch becomes record
    [count + j], holding the normalised row and the cleaned metadata. *)
Theorem add_embeddings_appends (self self' : VectorStore.t) (ix : IndexFlatIP)
    (embeddings : ndarray) (metadata : list pydict) :
  VectorStore.index self = Some ix ->
  VectorStore.add_embeddings self embeddings metadata = (self', Ok tt) ->
  exists ix',
    VectorStore.index self' = Some ix' /\
    d ix' = d ix /\
    ntotal ix' = (ntotal ix + List.length (rows embeddings))%nat /\
    List.length (VectorStore.metadata self')
    = (List.length (VectorStore.metadata self) + List.length metadata)%nat /\
    (forall i v, xb ix !! i = Some v -> xb ix' !! i = Some v) /\
    (forall i m, VectorStore.metadata self !! i = Some m ->
                 VectorStore.metadata self' !! i = Some m) /\
    (forall j v, rows embeddings !! j = Some v ->
                 xb ix' !! (ntotal ix + j)%nat = Some (normalize_L2 v)) /\
    (forall j m, metadata !! j = Some m ->
                 VectorStore.metadata self'
                   !! (List.length (VectorStore.metadata self) + j)%nat
                 = Some (VectorStore.clean_meta m)).
Proof.
  intros Hix Hadd.
  destruct (add_embeddings_outcome self embeddings metadata)
    as [(ix0 & Hix0 & Hlen & Hs & Heq) | (e & Heq)];
    rewrite Heq in Hadd; [|discriminate].
  assert (ix0 = ix) as -> by congruence.
  injection Hadd as <-.
  eexists. split; [reflexivity|]. simpl. unfold ntotal. simpl.
  split; [reflexivity|].
  split; [rewrite length_app, length_map; reflexivity|].
  split; [rewrite length_app, length_map; reflexivity|].
  split; [intros i v Hv; apply lookup_app_l_Some, Hv|].
  split; [intros i m Hm; apply lookup_app_l_Some, Hm|].
  split.
  - intros j v Hv. rewrite lookup_app_r by lia.
    replace (List.length (xb ix) + j - List.length (xb ix))%nat with j by lia.
    change (map normalize_L2 (rows embeddings)) with (normalize_L2 <$> rows embeddings).
    rewrite list_lookup_fmap, Hv. reflexivity.
  - intros j m Hm. rewrite lookup_app_r by lia.
    replace (List.length (VectorStore.metadata self) + j
             - List.length (VectorStore.metadata self))%nat with j by lia.
    change (map VectorStore.clean_meta metadata)
      with (VectorStore.clean_meta <$> metadata).
    rewrite list_lookup_fmap, Hm. reflexivity.
Qed.

End StoreInvariants.

(** ** Metadata cleaning and what [save] accepts *)

Section Cleaning.
Context `{FloatKernel}.
Import Faiss.

Lemma dict_set_fresh key v (d : pydict) :
  key ∉ d.*1 -> dict_set key v d = d ++ [(key, v)].
Proof.
  induction d as [|[k w] d IH]; simpl; intros Hfresh; [reflexivity|].
  rewrite not_elem_of_cons in Hfresh. destruct Hfresh as [Hne Hfresh].
  destruct (String.eqb key k) eqn:Hk.
  - apply String.eqb_eq in Hk. contradiction.
  - rewrite (IH Hfresh). reflexivity.
Qed.

Lemma clean_loop_distinct_keys (cleaned meta : pydict) :
  NoDup (cleaned.*1 ++ meta.*1) ->
  foldl (fun cleaned_meta kv =>
           dict_set (fst kv) (VectorStore.clean_value (snd kv)) cleaned_meta)
        cleaned meta
  = cleaned ++ map (fun kv => (kv.1, VectorStore.clean_value kv.2)) meta.
Proof.
  revert cleaned. induction meta as [|[k v] meta IH]; intros cleaned Hnd; simpl.
  - rewrite app_nil_r. reflexivity.
  - rewrite fmap_cons in Hnd. simpl in Hnd.
    assert (Hfresh : k ∉ cleaned.*1).
    { apply NoDup_app in Hnd as (_ & Hdisj & _).
      intros Hin. apply (Hdisj k Hin). constructor. }
    rewrite (dict_set_fresh k _ cleaned Hfresh).
    rewrite IH.
    + rewrite <- app_assoc. reflexivity.
    + rewrite fmap_app. simpl. rewrite <- app_assoc. simpl.
      exact Hnd.
Qed.

Lemma dict_get_map_values (f : pyval -> pyval) key (d : pydict) :
  dict_get key (map (fun kv => (kv.1, f kv.2)) d) = f <$> dict_get key d.
Proof.
  induction d as [|[k v] d IH]; simpl; [reflexivity|].
  destruct (String.eqb key k); [reflexivity | exact IH].
Qed.

(** X3. On a dict (pairwise distinct keys) the cleaning loop keeps the
    keys and their order and converts each value on its own: numpy
    integers to [int], numpy floats to [float], arrays to lists, every
    other value untouched. Looking a key up after cleaning gives the
    cleaned value of the original lookup. *)
Theorem clean_meta_converts_values (meta : pydict) :
  NoDup meta.*1 ->
  VectorStore.clean_meta meta
  = map (fun kv => (kv.1, VectorStore.clean_value kv.2)) meta /\
  (VectorStore.clean_meta meta).*1 = meta.*1 /\
  forall key,
    dict_get key (VectorStore.clean_meta meta)
    = VectorStore.clean_value <$> dict_get key meta.
Proof.
  intros Hnd.
  assert (Heq : VectorStore.clean_meta meta
                = map (fun kv => (kv.1, VectorStore.clean_value kv.2)) meta).
  { unfold VectorStore.clean_meta.
    rewrite (clean_loop_distinct_keys [] meta) by exact Hnd. reflexivity. }
  split; [exact Heq|]. rewrite Heq. split.
  - clear. induction meta as [|[k v] meta IH]; simpl; [reflexivity|].
    f_equal. exact IH.
  - intros key. apply dict_get_map_values.
Qed.

Lemma dict_set_values (P : pyval -> bool) key v (d : pydict) :
  P v = true ->
  forallb (fun kv => P (snd kv)) d = true ->
  forallb (fun kv => P (snd kv)) (dict_set key v d) = true.
Proof.
  intros Hv. induction d as [|[k w] d IH]; simpl.
  - intros _. rewrite Hv. reflexivity.
  - rewrite andb_true_iff. intros [Hw Hd].
    destruct (String.eqb key k); simpl.
    + rewrite Hv, Hd. reflexivity.
    + rewrite Hw, (IH Hd). reflexivity.
Qed.

Lemma clean_value_native (v : pyval) :
  cleanable v = true -> json_native (VectorStore.clean_value v) = true.
Proof.
  destruct v; simpl; try (intros Hv; exact Hv); try reflexivity.
  intros _. induction a as [|q a IH]; simpl; [reflexivity | exact IH].
Qed.

Lemma clean_meta_native (meta : pydict) :
  forallb (fun kv => cleanable (snd kv)) meta = true ->
  forallb (fun kv => json_native (snd kv)) (VectorStore.clean_meta meta) = true.
Proof.
  unfold VectorStore.clean_meta.
  assert (Hgen : forall cleaned,
             forallb (fun kv => json_native (snd kv)) cleaned = true ->
             forallb (fun kv => cleanable (snd kv)) meta = true ->
             forallb (fun kv => json_native (snd kv))
               (foldl (fun cleaned_meta kv =>
                         dict_set (fst kv) (VectorStore.clean_value (snd kv))
                                  cleaned_meta) cleaned meta) = true).
  { induction meta as [|[k v] meta IH]; intros cleaned Hc; simpl;
      [intros _; exact Hc|].
    rewrite andb_true_iff. intros [Hv Hm].
    apply IH; [|exact Hm].
    apply dict_set_values; [apply clean_value_native, Hv | exact Hc]. }
  apply Hgen. reflexivity.
Qed.

Lemma cleaned_metadata_serializable (metadata : list pydict) :
  cleanable_metadata metadata = true ->
  json_serializable (map VectorStore.clean_meta metadata) = true.
Proof.
  unfold cleanable_metadata, json_serializable.
  induction metadata as [|m metadata IH]; simpl; [reflexivity|].
  rewrite andb_true_iff. intros [Hm Hrest].
  rewrite (clean_meta_native m Hm). simpl. apply IH, Hrest.
Qed.

(** X4. The cleaning loop does what its comment announces: when the store's
    metadata is JSON-serialisable and every value of the submitted records
    is JSON-native or a numpy integer, float or array, the store after an
    accepted [add_embeddings] is JSON-serialisable again, and [save]
    succeeds on it whatever the file system holds. *)
Theorem add_embeddings_then_save_succeeds (self self' : VectorStore.t)
    (embeddings : ndarray) (metadata : list pydict) :
  json_serializable (VectorStore.metadata self) = true ->
  cleanable_metadata metadata = true ->
  VectorStore.add_embeddings self embeddings metadata = (self', Ok tt) ->
  json_serializable (VectorStore.metadata self') = true /\
  forall fs : filesystem,
    exists ix,
      VectorStore.index self' = Some ix /\
      VectorStore.save self' fs
      = (<[VectorStore.metadata_path self' := JsonFile (VectorStore.metadata self')]>
           (<[VectorStore.index_path self' := FaissFile ix]> fs), Ok tt).
Proof.
  intros Hjson Hclean Hadd.
  destruct (add_embeddings_outcome self embeddings metadata)
    as [(ix & Hix & _ & _ & Heq) | (e & Heq)];
    rewrite Heq in Hadd; [|discriminate].
  injection Hadd as <-. simpl.
  assert (Hser : json_serializable
                   (VectorStore.metadata self ++ map VectorStore.clean_meta metadata)
                 = true).
  { unfold json_serializable. rewrite forallb_app.
    unfold json_serializable in Hjson. rewrite Hjson. simpl.
    apply cleaned_metadata_serializable, Hclean. }
  split; [exact Hser|].
  intros fs. eexists. split; [reflexivity|].
  unfold VectorStore.save. simpl. rewrite Hser. reflexivity.
Qed.


End Cleaning.

(** ** What a search result can contain *)

Section SearchSoundness.
Context `{FloatKernel}.
Import Faiss RankFacts.

(** The shape of a non-empty search result. *)
Lemma search_shape (self : VectorStore.t) (q : vector) (k : Z) results :
  VectorStore.search self q k = Ok results ->
  results = [] \/
  exists ix,
    VectorStore.index self = Some ix /\ List.length q = d ix /\ 0 < k /\
    map hit_of results
    = List.filter (eligible (List.length (VectorStore.metadata self)))
                  (firstn (Z.to_nat k) (rank (scores ix (normalize_L2 q)))) /\
    Forall (from_metadata (VectorStore.metadata self)) results.
Proof.
  intros Hs. apply search_hits in Hs as [-> | (ix & Hix & Hd & Hk & Hc)];
    [left; reflexivity|].
  right. exists ix. split; [exact Hix|]. split; [exact Hd|]. split; [exact Hk|].
  simpl in Hc. pose proof (collect_results_hits _ _ _ Hc) as Hhits.
  rewrite filter_eligible_padded in Hhits. split; [exact Hhits|].
  apply (collect_results_sound _ _ _ Hc).
  apply Forall_forall. intros c Hc'.
  assert (Hin : hit_of c ∈ rank (scores ix (normalize_L2 q))).
  { eapply elem_of_sublist; [|apply sublist_take].
    eapply elem_of_sublist; [|apply filter_sublist].
    rewrite <- Hhits. apply list_elem_of_In, in_map, list_elem_of_In, Hc'. }
  rewrite (rank_perm (scores ix (normalize_L2 q))) in Hin.
  pose proof (scores_range ix (normalize_L2 q)) as Hr.
  rewrite Forall_forall in Hr. apply (Hr _ Hin).
Qed.

Lemma search_length_le (self : VectorStore.t) (q : vector) (k : Z) results :
  VectorStore.search self q k = Ok results ->
  (List.length results <= Z.to_nat k)%nat.
Proof.
  intros Hs. apply search_shape in Hs as [-> | (ix & _ & _ & _ & Hhits & _)];
    [simpl; lia|].
  rewrite <- (length_map hit_of), Hhits.
  etransitivity; [apply sublist_length, filter_sublist|].
  rewrite length_take. lia.
Qed.

Lemma search_positive (self : VectorStore.t) (q : vector) (k : Z) results :
  VectorStore.search self q k = Ok results ->
  Forall (fun c => (0 < similarity c)%Q) results.
Proof.
  intros Hs. apply search_shape in Hs as [-> | (ix & _ & _ & _ & Hhits & _)];
    [constructor|].
  apply Forall_forall. intros c Hc.
  assert (Hin : In (hit_of c) (map hit_of results))
    by (apply in_map, list_elem_of_In, Hc).
  rewrite Hhits in Hin. apply List.filter_In in Hin as [_ Hel].
  unfold eligible in Hel. apply andb_true_iff in Hel as [_ Hpos].
  apply Qlt_bool_iff, Hpos.
Qed.

Lemma search_ids_NoDup (self : VectorStore.t) (q : vector) (k : Z) results :
  VectorStore.search self q k = Ok results -> NoDup (map id results).
Proof.
  intros Hs. apply search_shape in Hs as [-> | (ix & _ & _ & _ & Hhits & _)];
    [constructor|].
  assert (Hids : map id results = (map hit_of results).*2).
  { clear. induction results as [|c results IH]; simpl; [reflexivity|].
    f_equal. exact IH. }
  rewrite Hids, Hhits.
  apply (sublist_NoDup _ (rank (scores ix (normalize_L2 q))).*2).
  - rewrite (rank_perm (scores ix (normalize_L2 q))), scores_labels.
    apply labels_NoDup.
  - apply fmap_sublist. etransitivity; [apply filter_sublist | apply sublist_take].
Qed.

(** X6. Whatever the state of the store (metadata shorter or longer than
    the index, records without a source), [search] returns at most [k]
    candidates, no record twice; every candidate has a strictly positive
    similarity, which is the inner product of the normalised query with
    the stored vector of that id; its id is a position of both the index
    and the metadata list; its content is the [content] of the metadata
    record at that position and its source is the record's [source], or
    ["unknown"] when the record has none. *)
Theorem search_results_sound (self : VectorStore.t) (q : vector) (k : Z)
    (results : list candidate) :
  VectorStore.search self q k = Ok results ->
  (List.length results <= Z.to_nat k)%nat /\
  NoDup (map id results) /\
  Forall (fun c =>
            (0 < similarity c)%Q /\
            0 <= id c < Z.of_nat (List.length (VectorStore.metadata self)) /\
            (exists ix v,
                VectorStore.index self = Some ix /\
                xb ix !! Z.to_nat (id c) = Some v /\
                similarity c = fvec_inner_product (normalize_L2 q) v) /\
            (exists meta,
                VectorStore.metadata self !! Z.to_nat (id c) = Some meta /\
                dict_get "content" meta = Some (content c) /\
                source c = match dict_get "source" meta with
                           | Some s => s
                           | None => PyStr "unknown"
                           end))
         results.
Proof.
  intros Hs.
  split; [eapply search_length_le; exact Hs|].
  split; [eapply search_ids_NoDup; exact Hs|].
  pose proof (search_positive _ _ _ _ Hs) as Hpos.
  apply search_shape in Hs as [-> | (ix & Hix & _ & _ & Hhits & Hmeta)];
    [constructor|].
  rewrite Forall_forall in Hpos, Hmeta. apply Forall_forall. intros c Hc.
  split; [apply Hpos, Hc|].
  assert (Hin : In (hit_of c) (map hit_of results))
    by (apply in_map, list_elem_of_In, Hc).
  rewrite Hhits in Hin. apply List.filter_In in Hin as [Hin Hel].
  assert (HinS : hit_of c ∈ scores ix (normalize_L2 q)).
  { rewrite <- (rank_perm (scores ix (normalize_L2 q))).
    eapply elem_of_sublist; [apply list_elem_of_In, Hin | apply sublist_take]. }
  apply scores_elem in HinS as (j & v & Hv & Heq).
  unfold hit_of in Heq. injection Heq as Hsim Hid.
  unfold eligible in Hel. apply andb_true_iff in Hel as [Hlt _].
  apply Z.ltb_lt in Hlt. simpl in Hlt.
  split; [lia|]. split.
  - exists ix, v. rewrite Hid, Nat2Z.id. repeat split; assumption.
  - destruct (Hmeta c Hc) as (meta & Hm & Hcontent & Hsource).
    exists meta. split; [exact Hm|]. split; [exact Hcontent|]. exact Hsource.
Qed.

Lemma search_without_metadata (self : VectorStore.t) (q : vector) (k : Z) :
  VectorStore.metadata self = [] -> VectorStore.search self q k = Ok [].
Proof.
  intros Hm. destruct (search_total self q k) as [results Hs].
  rewrite Hs. f_equal.
  apply search_shape in Hs as [-> | (ix & _ & _ & _ & _ & Hmeta)]; [reflexivity|].
  destruct results as [|c results]; [reflexivity|].
  apply Forall_cons in Hmeta as [(meta & Hl & _) _].
  rewrite Hm, lookup_nil in Hl. discriminate.
Qed.

(** X7. A store loaded from an index file alone, the metadata file being
    absent, loads without error, reports its vectors and a metadata count
    of zero, and answers every search with the empty list: no hit finds its
    metadata record. *)
Theorem load_without_metadata_finds_nothing (index_path metadata_path : string)
    (fs : filesystem) (ix : IndexFlatIP) :
  fs !! index_path = Some (FaissFile ix) ->
  fs !! metadata_path = None ->
  exists self,
    VectorStore.load (VectorStore.__init__ index_path metadata_path) fs
    = (self, Ok tt) /\
    VectorStore.get_stats self
    = [("status", PyStr "loaded");
       ("total_entries", PyInt (Z.of_nat (ntotal ix)));
       ("embedding_dim", PyInt (Z.of_nat (d ix)));
       ("metadata_count", PyInt 0)] /\
    forall q k, VectorStore.search self q k = Ok [].
Proof.
  intros Hi Hm. unfold VectorStore.load, VectorStore.__init__. simpl.
  rewrite Hi, Hm. eexists. split; [reflexivity|].
  split; [reflexivity|].
  intros q k. apply search_without_metadata. reflexivity.
Qed.

End SearchSoundness.

(** ** The two retrievers *)

Section Retrievers.
Context `{FloatKernel}.
Import Faiss RankFacts.

Lemma filter_Forall {A} (f : A -> bool) (l : list A) :
  Forall (fun x => f x = true) (List.filter f l).
Proof.
  apply Forall_forall. intros x Hx.
  apply list_elem_of_In, List.filter_In in Hx as [_ Hx]. exact Hx.
Qed.

Lemma filter_nil_Forall {A} (f : A -> bool) (l : list A) :
  List.filter f l = [] -> Forall (fun x => f x = false) l.
Proof.
  induction l as [|x l IH]; simpl; [constructor|].
  destruct (f x) eqn:Hx; [discriminate|].
  intros Hl. constructor; [exact Hx | apply IH, Hl].
Qed.

Lemma passing_Forall (threshold : Q) (l : list candidate) :
  Forall (fun c => (threshold <= similarity c)%Q) (passing threshold l).
Proof.
  eapply Forall_impl; [apply filter_Forall|].
  intros c Hc. apply Qle_bool_iff, Hc.
Qed.

Lemma none_passing_all_below (threshold : Q) (l : list candidate) :
  passing threshold l = [] -> Forall (fun c => (similarity c < threshold)%Q) l.
Proof.
  intros Hp. eapply Forall_impl; [apply filter_nil_Forall, Hp|].
  intros c Hc. simpl in Hc. apply Qnot_le_lt. intros Hle.
  apply Qle_bool_iff in Hle. congruence.
Qed.

(** X8. The original retriever returns at most [top_k] candidates, no
    record twice, by similarity descending, and every one of them reaches
    the threshold (and has a strictly positive similarity): it has no
    fallback and may return nothing. It never raises. *)
Theorem fact_retriever_only_above_threshold (self : FactRetriever.t)
    (claim : string) (top_k : option Z) (similarity_threshold : option Q) :
  exists result,
    FactRetriever.retrieve_similar_facts self claim top_k similarity_threshold
    = Ok result /\
    (List.length result <= Z.to_nat (default AppConfig.TOP_K_RESULTS top_k))%nat /\
    Forall (fun c =>
              (default AppConfig.SIMILARITY_THRESHOLD similarity_threshold
               <= similarity c)%Q /\ (0 < similarity c)%Q)
           result /\
    descending result /\
    NoDup (map id result).
Proof.
  unfold FactRetriever.retrieve_similar_facts.
  destruct (search_total (FactRetriever.vector_store self)
              (generate_embedding (FactRetriever.embedding_generator self) claim)
              (default AppConfig.TOP_K_RESULTS top_k)) as [results Hs].
  rewrite Hs. simpl. eexists. split; [reflexivity|].
  fold (passing (default AppConfig.SIMILARITY_THRESHOLD similarity_threshold) results).
  assert (Hsub : passing (default AppConfig.SIMILARITY_THRESHOLD similarity_threshold)
                   results `sublist_of` results) by apply filter_sublist.
  split; [|split; [|split]].
  - etransitivity; [apply sublist_length, Hsub|].
    eapply search_length_le; exact Hs.
  - pose proof (search_positive _ _ _ _ Hs) as Hpos.
    pose proof (passing_Forall
                  (default AppConfig.SIMILARITY_THRESHOLD similarity_threshold)
                  results) as Hpass.
    rewrite Forall_forall in Hpos, Hpass. apply Forall_forall. intros c Hc.
    split; [apply Hpass, Hc|].
    apply Hpos. eapply elem_of_sublist; eassumption.
  - eapply sorted_sublist; [exact Hsub | eapply search_descending; exact Hs].
  - apply (sublist_NoDup _ (map id results));
      [eapply search_ids_NoDup; exact Hs|].
    change (map id ?l) with (id <$> l). apply fmap_sublist, Hsub.
Qed.

(** X9. With [top_k >= 1] the enhanced retriever comes back empty-handed
    only when the search itself found nothing. Its result is never mixed:
    either every candidate reaches the threshold, or no candidate of the
    search does and the result is the best one or two of them, all below
    the threshold. *)
Theorem enhanced_retriever_falls_back_or_filters (self : EnhancedFactRetriever.t)
    (claim : string) (top_k : Z) (threshold : Q) :
  1 <= top_k ->
  exists initial result,
    VectorStore.search (EnhancedFactRetriever.vector_store self)
      (generate_embedding (EnhancedFactRetriever.embedding_generator self) claim)
      (top_k * 2) = Ok initial /\
    EnhancedFactRetriever.retrieve_similar_facts self claim (Some top_k)
      (Some threshold) = Ok result /\
    (result = [] <-> initial = []) /\
    (Forall (fun c => (threshold <= similarity c)%Q) result \/
     (Forall (fun c => (similarity c < threshold)%Q) initial /\
      result = firstn (Nat.min (Z.to_nat top_k) 2) initial)).
Proof.
  intros Hk.
  destruct (search_total (EnhancedFactRetriever.vector_store self)
              (generate_embedding (EnhancedFactRetriever.embedding_generator self)
                                  claim) (top_k * 2)) as [initial Hs].
  exists initial. eexists. split; [exact Hs|].
  split; [apply retrieve_steps; [lia | exact Hs]|].
  assert (Hpos : exists n, Z.to_nat top_k = S n).
  { exists (Z.to_nat top_k - 1)%nat. lia. }
  destruct Hpos as [n Hn]. rewrite Hn.
  destruct (passing threshold initial) as [|c cs] eqn:Hp.
  - split.
    + destruct initial as [|c0 initial]; [split; reflexivity|].
      split; [|discriminate]. destruct n; discriminate.
    + right. split; [apply none_passing_all_below, Hp|].
      rewrite take_take. reflexivity.
  - split.
    + split; [discriminate|].
      intros ->. discriminate Hp.
    + left. simpl.
      pose proof (passing_Forall threshold initial) as Hall. rewrite Hp in Hall.
      apply Forall_cons in Hall as [Hc Hcs].
      constructor; [exact Hc|].
      rewrite Forall_forall in Hcs. apply Forall_forall. intros x Hx.
      apply Hcs. eapply elem_of_sublist; [exact Hx | apply sublist_take].
Qed.

End Retrievers.

Section RetrieverAgreement.
Context `{FloatKernel}.
Import Faiss RankFacts.

Lemma from_metadata_determined (metadata : list pydict) (c1 c2 : candidate) :
  from_metadata metadata c1 -> from_metadata metadata c2 ->
  hit_of c1 = hit_of c2 -> c1 = c2.
Proof.
  intros (m1 & Hm1 & Hc1 & Hs1) (m2 & Hm2 & Hc2 & Hs2) Hhit.
  destruct c1 as [s1 ct1 so1 i1], c2 as [s2 ct2 so2 i2].
  unfold hit_of in Hhit. simpl in *. injection Hhit as -> ->.
  assert (m1 = m2) as -> by congruence.
  f_equal; congruence.
Qed.

Lemma same_hits_same_candidates (metadata : list pydict) (l1 l2 : list candidate) :
  Forall (from_metadata metadata) l1 -> Forall (from_metadata metadata) l2 ->
  map hit_of l1 = map hit_of l2 -> l1 = l2.
Proof.
  intros H1. revert l2. induction H1 as [|c1 l1 Hc1 _ IH]; intros l2 H2 Heq.
  - destruct l2; [reflexivity | discriminate].
  - destruct l2 as [|c2 l2]; [discriminate|].
    apply Forall_cons in H2 as [Hc2 H2]. simpl in Heq.
    assert (Hhit : hit_of c1 = hit_of c2) by congruence.
    assert (Hrest : map hit_of l1 = map hit_of l2) by congruence.
    f_equal; [eapply from_metadata_determined; eassumption | apply IH; assumption].
Qed.

Lemma passing_hits (threshold : Q) (l : list candidate) :
  map hit_of (passing threshold l)
  = List.filter (fun h : hit => Qle_bool threshold h.1) (map hit_of l).
Proof.
  unfold passing. induction l as [|c l IH]; simpl; [reflexivity|].
  destruct (Qle_bool threshold (similarity c)); simpl; rewrite IH; reflexivity.
Qed.

Lemma filter_filter_andb {A} (f g : A -> bool) (l : list A) :
  List.filter g (List.filter f l) = List.filter (fun x => f x && g x) l.
Proof.
  induction l as [|x l IH]; simpl; [reflexivity|].
  destruct (f x); simpl; [|exact IH].
  destruct (g x); rewrite IH; reflexivity.
Qed.

(** On a ranked list, a test that only gets easier with a higher
    similarity selects a prefix, so filtering commutes with truncation. *)
Lemma filter_take_ranked (test : hit -> bool) (l : list hit) (n : nat) :
  StronglySorted hit_lt l ->
  (forall a b, hit_lt a b -> test b = true -> test a = true) ->
  List.filter test (firstn n l) = firstn n (List.filter test l).
Proof.
  intros Hs Hup. revert n. induction Hs as [|a l Hs IH Hall]; intros n.
  - rewrite !firstn_nil. reflexivity.
  - destruct n as [|n]; [reflexivity|]. simpl.
    destruct (test a) eqn:Ha; simpl; [rewrite IH; reflexivity|].
    assert (Hnone : Forall (fun b => test b = false) l).
    { eapply Forall_impl; [exact Hall|]. intros b Hab.
      destruct (test b) eqn:Hb; [|reflexivity].
      rewrite (Hup a b Hab Hb) in Ha. discriminate. }
    rewrite (filter_none test l Hnone), firstn_nil.
    apply filter_none. rewrite Forall_forall in Hnone. apply Forall_forall.
    intros b Hb. apply Hnone. eapply elem_of_sublist; [exact Hb | apply sublist_take].
Qed.

Lemma positive_and_passing_upward (threshold : Q) (a b : hit) :
  hit_lt a b ->
  Qlt_bool 0 b.1 && Qle_bool threshold b.1 = true ->
  Qlt_bool 0 a.1 && Qle_bool threshold a.1 = true.
Proof.
  intros Hab. apply hit_lt_sim in Hab.
  rewrite !andb_true_iff, !Qlt_bool_iff, !Qle_bool_iff.
  intros [Hpos Hthr]. split.
  - eapply Qlt_le_trans; eassumption.
  - eapply Qle_trans; eassumption.
Qed.

(** X10. On an aligned store and with [top_k >= 1], the enhanced retriever
    extends the original one: whenever the original retriever finds
    something, the enhanced retriever returns exactly the same candidates;
    when the original finds nothing, the enhanced one returns the best one
    or two candidates of its search, all of them below the threshold. *)
Theorem enhanced_retriever_extends_original (generator : EmbeddingGenerator)
    (store : VectorStore.t) (ix : IndexFlatIP) (claim : string) (top_k : Z)
    (threshold : Q) :
  VectorStore.index store = Some ix ->
  List.length (VectorStore.metadata store) = ntotal ix ->
  Forall (fun m => dict_contains "content" m = true) (VectorStore.metadata store) ->
  List.length (generate_embedding generator claim) = d ix ->
  1 <= top_k ->
  exists original enhanced initial,
    FactRetriever.retrieve_similar_facts
      {| FactRetriever.embedding_generator := generator;
         FactRetriever.vector_store := store |}
      claim (Some top_k) (Some threshold) = Ok original /\
    EnhancedFactRetriever.retrieve_similar_facts
      {| EnhancedFactRetriever.embedding_generator := generator;
         EnhancedFactRetriever.vector_store := store |}
      claim (Some top_k) (Some threshold) = Ok enhanced /\
    VectorStore.search store (generate_embedding generator claim) (top_k * 2)
    = Ok initial /\
    (original <> [] -> enhanced = original) /\
    (original = [] ->
     enhanced = firstn (Nat.min (Z.to_nat top_k) 2) initial /\
     Forall (fun c => (similarity c < threshold)%Q) initial).
Proof.
  intros Hix Halign Hcontent Hd Hk.
  set (q := generate_embedding generator claim) in *.
  set (R := rank (scores ix (normalize_L2 q))).
  set (test := fun h : hit => Qlt_bool 0 h.1 && Qle_bool threshold h.1).
  destruct (search_aligned store ix q top_k Hix Halign Hcontent Hd)
    as (r1 & Hs1 & Hh1 & Hm1); [lia|].
  destruct (search_aligned store ix q (top_k * 2) Hix Halign Hcontent Hd)
    as (r2 & Hs2 & Hh2 & Hm2); [lia|].
  fold R in Hh1, Hh2.
  assert (Hsorted : StronglySorted hit_lt R) by apply rank_scores_strict.
  assert (Hup : forall a b, hit_lt a b -> test b = true -> test a = true)
    by (intros a b; apply positive_and_passing_upward).
  assert (Ho : map hit_of (passing threshold r1)
               = firstn (Z.to_nat top_k) (List.filter test R)).
  { rewrite passing_hits, Hh1, filter_filter_andb.
    apply filter_take_ranked; assumption. }
  assert (He : map hit_of (passing threshold r2)
               = firstn (Z.to_nat (top_k * 2)) (List.filter test R)).
  { rewrite passing_hits, Hh2, filter_filter_andb.
    apply filter_take_ranked; assumption. }
  assert (Hmo : Forall (from_metadata (VectorStore.metadata store))
                       (passing threshold r1)).
  { rewrite Forall_forall in Hm1. apply Forall_forall. intros c Hc.
    apply Hm1. eapply elem_of_sublist; [exact Hc | apply filter_sublist]. }
  assert (Hme : Forall (from_metadata (VectorStore.metadata store))
                       (firstn (Z.to_nat top_k) (passing threshold r2))).
  { rewrite Forall_forall in Hm2. apply Forall_forall. intros c Hc.
    apply Hm2. eapply elem_of_sublist; [exact Hc|].
    etransitivity; [apply sublist_take | apply filter_sublist]. }
  assert (Hsame : firstn (Z.to_nat top_k) (passing threshold r2)
                  = passing threshold r1).
  { eapply same_hits_same_candidates; [exact Hme | exact Hmo|].
    rewrite <- firstn_map, He, Ho, take_take. f_equal. lia. }
  exists (passing threshold r1). eexists. exists r2.
  split.
  { unfold FactRetriever.retrieve_similar_facts. simpl. fold q.
    rewrite Hs1. reflexivity. }
  split; [apply retrieve_steps; [lia | exact Hs2]|].
  split; [exact Hs2|].
  destruct (passing threshold r2) as [|c cs] eqn:Hp2.
  - rewrite firstn_nil in Hsame. rewrite <- Hsame. split; [congruence|].
    intros _. split; [apply take_take|].
    apply none_passing_all_below, Hp2.
  - split; [intros _; exact Hsame|].
    intros Hnil. rewrite Hnil in Hsame.
    assert (Hpos : exists n, Z.to_nat top_k = S n)
      by (exists (Z.to_nat top_k - 1)%nat; lia).
    destruct Hpos as [n Hn]. rewrite Hn in Hsame. discriminate Hsame.
Qed.

End RetrieverAgreement.

(** ** Cutting the JSON object out of the model's reply *)

Section ReplyText.
Context `{JsonKernel}.

Lemma str_app_nil (s : string) : "" +:+ s = s.
Proof. reflexivity. Qed.

Lemma str_app_cons a (s1 s2 : string) : String a s1 +:+ s2 = String a (s1 +:+ s2).
Proof. reflexivity. Qed.

Ltac str_simpl := rewrite ?str_app_nil, ?str_app_cons; simpl.

Lemma str_app_nil_r (s : string) : s +:+ "" = s.
Proof.
  induction s as [|a s IH]; str_simpl; [reflexivity | rewrite IH; reflexivity].
Qed.

Lemma str_length_app (s1 s2 : string) :
  String.length (s1 +:+ s2) = (String.length s1 + String.length s2)%nat.
Proof.
  induction s1 as [|a s1 IH]; str_simpl; [reflexivity | rewrite IH; reflexivity].
Qed.

Lemma str_find_range c s :
  str_find c s = -1 \/ 0 <= str_find c s < Z.of_nat (String.length s).
Proof.
  induction s as [|a s IH]; simpl; [left; reflexivity|].
  destruct (Ascii.eqb a c); [right; lia|].
  destruct IH as [-> | Hr]; [left; reflexivity|].
  destruct (str_find c s <? 0) eqn:Hneg; [apply Z.ltb_lt in Hneg; lia|].
  right. lia.
Qed.

Lemma str_rfind_range c s :
  str_rfind c s = -1 \/ 0 <= str_rfind c s < Z.of_nat (String.length s).
Proof.
  induction s as [|a s IH]; simpl; [left; reflexivity|].
  destruct IH as [-> | Hr].
  - simpl. destruct (Ascii.eqb a c); [right; lia | left; reflexivity].
  - destruct (0 <=? str_rfind c s) eqn:Hpos; [right; lia|].
    apply Z.leb_gt in Hpos. lia.
Qed.

Lemma str_find_app_absent c s1 s2 :
  str_find c s1 = -1 -> 0 <= str_find c s2 ->
  str_find c (s1 +:+ s2) = Z.of_nat (String.length s1) + str_find c s2.
Proof.
  intros Habs Hpos. induction s1 as [|a s1 IH]; str_simpl; simpl in Habs; [lia|].
  destruct (Ascii.eqb a c); [discriminate|].
  destruct (str_find c s1 <? 0) eqn:Hneg.
  - apply Z.ltb_lt in Hneg.
    destruct (str_find_range c s1) as [Hm | Hr]; [|lia].
    rewrite (IH Hm).
    destruct (_ <? 0) eqn:Hneg'; [apply Z.ltb_lt in Hneg'; lia | lia].
  - apply Z.ltb_ge in Hneg. lia.
Qed.

Lemma str_rfind_app_present c s1 s2 :
  0 <= str_rfind c s2 ->
  str_rfind c (s1 +:+ s2) = Z.of_nat (String.length s1) + str_rfind c s2.
Proof.
  intros Hpos. induction s1 as [|a s1 IH]; str_simpl; [lia|].
  rewrite IH.
  destruct (0 <=? _) eqn:Hb; [lia|]. apply Z.leb_gt in Hb. lia.
Qed.

Lemma str_rfind_app_absent c s1 s2 :
  str_rfind c s2 = -1 -> str_rfind c (s1 +:+ s2) = str_rfind c s1.
Proof.
  intros Habs. induction s1 as [|a s1 IH]; str_simpl; [exact Habs|].
  rewrite IH. reflexivity.
Qed.

Lemma str_rfind_last c s : str_rfind c (s +:+ String c "") = Z.of_nat (String.length s).
Proof.
  induction s as [|a s IH]; str_simpl.
  - rewrite Ascii.eqb_refl. reflexivity.
  - rewrite IH.
    destruct (0 <=? _) eqn:Hb; [lia|]. apply Z.leb_gt in Hb. lia.
Qed.

Lemma substring_skip (s1 s2 : string) (n : nat) :
  String.substring (String.length s1) n (s1 +:+ s2) = String.substring 0 n s2.
Proof. induction s1 as [|a s1 IH]; str_simpl; [reflexivity | exact IH]. Qed.

Lemma substring_prefix (s1 s2 : string) :
  String.substring 0 (String.length s1) (s1 +:+ s2) = s1.
Proof.
  induction s1 as [|a s1 IH]; str_simpl.
  - destruct s2; reflexivity.
  - rewrite IH. reflexivity.
Qed.

(** The substring that is handed to [json.loads]. *)
Lemma json_str_of_wrapped (pre middle post : string) :
  str_find "{" pre = -1 ->
  str_rfind "}" post = -1 ->
  let body := String "{" (middle +:+ "}") in
  let text := pre +:+ body +:+ post in
  str_find "{" text = Z.of_nat (String.length pre) /\
  str_rfind "}" text = Z.of_nat (String.length pre + String.length body) - 1 /\
  str_slice text (str_find "{" text) (str_rfind "}" text + 1) = body.
Proof.
  intros Hpre Hpost body text.
  assert (Hfind : str_find "{" text = Z.of_nat (String.length pre)).
  { unfold text. rewrite str_find_app_absent; [|exact Hpre|]; simpl; lia. }
  assert (Hbody : str_rfind "}" body = Z.of_nat (String.length body) - 1).
  { unfold body. simpl String.length.
    change (String "{" (middle +:+ "}")) with ((String "{" middle) +:+ "}").
    rewrite str_rfind_last. simpl String.length.
    rewrite str_length_app. simpl. lia. }
  assert (Hlen : (1 <= String.length body)%nat) by (unfold body; simpl; lia).
  assert (Hrfind : str_rfind "}" text
                   = Z.of_nat (String.length pre + String.length body) - 1).
  { unfold text. rewrite str_rfind_app_present.
    - rewrite (str_rfind_app_absent _ body post Hpost), Hbody. lia.
    - rewrite (str_rfind_app_absent _ body post Hpost), Hbody. lia. }
  split; [exact Hfind|]. split; [exact Hrfind|].
  rewrite Hfind, Hrfind. unfold str_slice.
  assert (Htext : String.length text
                  = (String.length pre + (String.length body + String.length post))%nat).
  { unfold text. rewrite !str_length_app. reflexivity. }
  rewrite Htext.
  replace (Z.to_nat (Z.of_nat (String.length pre))) with (String.length pre) by lia.
  replace (Z.to_nat
             (Z.min (Z.of_nat (String.length pre + String.length body) - 1 + 1)
                    (Z.of_nat (String.length pre
                               + (String.length body + String.length post))))
           - String.length pre)%nat
    with (String.length body) by lia.
  unfold text. rewrite substring_skip. apply substring_prefix.
Qed.

(** X11. The parser tolerates text around the JSON object. When the reply
    is a piece of text without an opening brace, then an object from its
    opening to its closing brace, then a piece of text without a closing
    brace, exactly the object is handed to [json.loads], and the reply is
    parsed as the bare object would be. *)
Theorem reply_parsed_as_its_json_object (pre middle post : string)
    (retrieved_facts : list candidate) :
  str_find "{" pre = -1 ->
  str_rfind "}" post = -1 ->
  let body := String "{" (middle +:+ "}") in
  str_slice (pre +:+ body +:+ post)
            (str_find "{" (pre +:+ body +:+ post))
            (str_rfind "}" (pre +:+ body +:+ post) + 1) = body /\
  GroqClient.parse_attempt (pre +:+ body +:+ post) retrieved_facts
  = GroqClient.parse_attempt body retrieved_facts /\
  GroqClient._parse_enhanced_response (pre +:+ body +:+ post) retrieved_facts
  = GroqClient._parse_enhanced_response body retrieved_facts.
Proof.
  intros Hpre Hpost body.
  destruct (json_str_of_wrapped pre middle post Hpre Hpost) as (Hf & Hr & Hslice).
  fold body in Hf, Hr, Hslice.
  assert (Hbare : str_find "{" ("" +:+ body +:+ "") = 0 /\
                  str_rfind "}" ("" +:+ body +:+ "")
                  = Z.of_nat (String.length body) - 1 /\
                  str_slice ("" +:+ body +:+ "") (str_find "{" ("" +:+ body +:+ ""))
                            (str_rfind "}" ("" +:+ body +:+ "") + 1) = body)
    by (apply (json_str_of_wrapped "" middle ""); reflexivity).
  assert (Hid : "" +:+ body +:+ "" = body).
  { rewrite str_app_nil. apply str_app_nil_r. }
  rewrite Hid in Hbare. destruct Hbare as (Hf0 & Hr0 & Hslice0).
  split; [exact Hslice|].
  assert (Hattempt : GroqClient.parse_attempt (pre +:+ body +:+ post) retrieved_facts
                     = GroqClient.parse_attempt body retrieved_facts).
  { unfold GroqClient.parse_attempt.
    rewrite Hslice, Hslice0, Hf, Hr, Hf0, Hr0.
    assert (Hlen : (1 <= String.length body)%nat) by (unfold body; simpl; lia).
    destruct (Z.of_nat (String.length pre) =? -1) eqn:E1;
      [apply Z.eqb_eq in E1; lia|].
    destruct (Z.of_nat (String.length pre + String.length body) - 1 =? -1) eqn:E2;
      [apply Z.eqb_eq in E2; lia|].
    destruct (Z.of_nat (String.length body) - 1 =? -1) eqn:E3;
      [apply Z.eqb_eq in E3; lia|].
    reflexivity. }
  split; [exact Hattempt|].
  unfold GroqClient._parse_enhanced_response. rewrite Hattempt. reflexivity.
Qed.

End ReplyText.

(** ** What a parsed reply contains *)

Section ParsedReply.
Context `{JsonKernel}.
Import GroqClient.

(** The value [fill_required] gives to a missing field. *)
Lemma fill_required_get key field (d : pydict) :
  dict_get key (fill_required d field)
  = match dict_get key d with
    | Some v => Some v
    | None =>
        if String.eqb key field
        then Some (if String.eqb field "key_evidence" then PyList [] else PyStr "unknown")
        else None
    end.
Proof.
  unfold fill_required, dict_contains.
  destruct (dict_get field d) as [w|] eqn:Hf.
  - destruct (dict_get key d) as [v|] eqn:Hk; [reflexivity|].
    destruct (String.eqb key field) eqn:He; [|reflexivity].
    apply String.eqb_eq in He. congruence.
  - destruct (String.eqb key field) eqn:He.
    + apply String.eqb_eq in He. subst key.
      rewrite dict_get_set_eq, Hf. reflexivity.
    + rewrite dict_get_set_ne
        by (intros ->; rewrite String.eqb_refl in He; discriminate).
      destruct (dict_get key d); reflexivity.
Qed.

Lemma fill_all_required_get key (d : pydict) :
  dict_get key (foldl fill_required d required)
  = match dict_get key d with
    | Some v => Some v
    | None =>
        if existsb (String.eqb key) required
        then Some (if String.eqb key "key_evidence" then PyList [] else PyStr "unknown")
        else None
    end.
Proof.
  unfold required. simpl. rewrite !fill_required_get.
  destruct (dict_get key d) as [v|]; [reflexivity|].
  destruct (String.eqb key "verdict") eqn:E1;
    [apply String.eqb_eq in E1; subst key; reflexivity|].
  destruct (String.eqb key "confidence") eqn:E2;
    [apply String.eqb_eq in E2; subst key; reflexivity|].
  destruct (String.eqb key "reasoning") eqn:E3;
    [apply String.eqb_eq in E3; subst key; reflexivity|].
  destruct (String.eqb key "key_evidence") eqn:E4; reflexivity.
Qed.

Lemma parse_attempt_Ok_inv text facts r :
  parse_attempt text facts = Ok r ->
  exists d,
    json_loads (str_slice text (str_find "{" text) (str_rfind "}" text + 1)) = Ok d /\
    let filled := foldl fill_required d required in
    let with_matches :=
      if dict_contains "semantic_matches" filled then filled
      else dict_set "semantic_matches"
             (PyDict [("entity_matches", PyList []);
                      ("conceptual_alignment", PyStr "not_analyzed");
                      ("wording_differences", PyStr "not_analyzed")]) filled in
    r = dict_set "retrieved_facts" (PyList (map candidate_dict facts))
          (dict_set "retrieved_facts_count" (PyInt (Z.of_nat (List.length facts)))
                    with_matches).
Proof.
  unfold parse_attempt.
  destruct (negb _ && negb _); [|discriminate].
  destruct (json_loads _) as [d|]; simpl; [|discriminate].
  intros [= <-]. exists d. split; reflexivity.
Qed.

(** X12. When the model's reply parses to a JSON object, the result keeps
    every field of that object as the model wrote it, except the two
    retrieval fields, which are always overwritten with the number and the
    list of the retrieved candidates; a missing verdict, confidence or
    reasoning becomes the string ["unknown"], a missing key_evidence the
    empty list, and missing semantic_matches the [not_analyzed] block. *)
Theorem parsed_reply_keeps_model_fields (text : string)
    (retrieved_facts : list candidate) (r : pydict) :
  parse_attempt text retrieved_facts = Ok r ->
  exists d,
    json_loads (str_slice text (str_find "{" text) (str_rfind "}" text + 1)) = Ok d /\
    _parse_enhanced_response text retrieved_facts = r /\
    (forall key v,
        key <> "retrieved_facts_count" -> key <> "retrieved_facts" ->
        dict_get key d = Some v -> dict_get key r = Some v) /\
    Forall (fun field =>
              dict_get field d = None ->
              dict_get field r
              = Some (if String.eqb field "key_evidence"
                      then PyList [] else PyStr "unknown"))
           required /\
    (dict_get "semantic_matches" d = None ->
     dict_get "semantic_matches" r
     = Some (PyDict [("entity_matches", PyList []);
                     ("conceptual_alignment", PyStr "not_analyzed");
                     ("wording_differences", PyStr "not_analyzed")])) /\
    dict_get "retrieved_facts_count" r
    = Some (PyInt (Z.of_nat (List.length retrieved_facts))) /\
    dict_get "retrieved_facts" r = Some (PyList (map candidate_dict retrieved_facts)).
Proof.
  intros Hp. destruct (parse_attempt_Ok_inv _ _ _ Hp) as (d & Hd & Hr).
  exists d. split; [exact Hd|].
  split; [unfold _parse_enhanced_response; rewrite Hp; reflexivity|].
  cbv zeta in Hr.
  set (filled := foldl fill_required d required) in *.
  assert (Hmatches : forall key,
             key <> "semantic_matches" -> key <> "retrieved_facts_count" ->
             key <> "retrieved_facts" ->
             dict_get key r = dict_get key filled).
  { intros key H1 H2 H3. rewrite Hr.
    rewrite !dict_get_set_ne by assumption.
    destruct (dict_contains "semantic_matches" filled); [reflexivity|].
    apply dict_get_set_ne, H1. }
  assert (Hsm : dict_get "semantic_matches" r
                = match dict_get "semantic_matches" d with
                  | Some v => Some v
                  | None =>
                      Some (PyDict [("entity_matches", PyList []);
                                    ("conceptual_alignment", PyStr "not_analyzed");
                                    ("wording_differences", PyStr "not_analyzed")])
                  end).
  { rewrite Hr. rewrite !dict_get_set_ne by discriminate.
    assert (Hf : dict_get "semantic_matches" filled = dict_get "semantic_matches" d).
    { unfold filled. rewrite fill_all_required_get.
      destruct (dict_get "semantic_matches" d); reflexivity. }
    unfold dict_contains. rewrite Hf.
    destruct (dict_get "semantic_matches" d) as [v|] eqn:Hv.
    - rewrite Hf. reflexivity.
    - apply dict_get_set_eq. }
  split; [|split; [|split; [|split]]].
  - intros key v H2 H3 Hv.
    destruct (decide (key = "semantic_matches")) as [-> | H1].
    + rewrite Hsm, Hv. reflexivity.
    + rewrite (Hmatches key H1 H2 H3). unfold filled.
      rewrite fill_all_required_get, Hv. reflexivity.
  - unfold required.
    repeat constructor; intros Hnone;
      (rewrite Hmatches by discriminate); unfold filled;
      rewrite fill_all_required_get, Hnone; reflexivity.
  - intros Hnone. rewrite Hsm, Hnone. reflexivity.
  - rewrite Hr. rewrite dict_get_set_ne by discriminate. apply dict_get_set_eq.
  - rewrite Hr. apply dict_get_set_eq.
Qed.

End ParsedReply.

(** ** The whole check *)

Section WholeCheck.
Context `{FloatKernel} `{JsonKernel}.
Import FactChecker.

(** The steps of [check_claim] on its first claim and on the others. *)
Lemma check_claim_steps (self : FactChecker.t) (text : string) :
  exists first others facts primary others_results,
    @ClaimExtractor.extract_claims (claim_extractor self) text = first :: others /\
    EnhancedFactRetriever.retrieve_similar_facts (retriever self) first None None
    = Ok facts /\
    GroqClient.fact_check_claim (llm_client self) first facts = Ok primary /\
    for_each (verify_claim self) others = Ok others_results /\
    map claim others_results = others /\
    check_claim self text
    = _aggregate_results text
        ({| claim := first; verification_result := primary |} :: others_results)
        (@ClaimExtractor.extract_entities (claim_extractor self) text).
Proof.
  destruct (@ClaimExtractor.extract_claims (claim_extractor self) text)
    as [|first others] eqn:Hclaims.
  { exfalso. rewrite (@extract_claims_cases (claim_extractor self) text) in Hclaims.
    simpl in Hclaims. destruct (List.filter _ _); discriminate. }
  destruct (retrieve_total (retriever self) first None None) as [facts Hfacts].
  destruct (fact_check_claim_total (llm_client self) first facts) as [primary Hp].
  destruct (for_each_verify_total self others) as (rs & Hrs & Hmap).
  exists first, others, facts, primary, rs.
  split; [reflexivity|]. split; [exact Hfacts|]. split; [exact Hp|].
  split; [exact Hrs|]. split; [exact Hmap|].
  unfold check_claim. rewrite Hclaims. simpl.
  unfold verify_claim at 1. rewrite Hfacts. simpl. rewrite Hp. simpl.
  rewrite Hrs. reflexivity.
Qed.

Lemma fact_check_claim_fields (client : GroqClient.t) (c : string)
    (facts : list candidate) (r : pydict) :
  GroqClient.fact_check_claim client c facts = Ok r ->
  well_shaped r /\
  (dict_get "retrieved_facts_count" r = Some (PyInt 0) \/
   dict_get "retrieved_facts_count" r = Some (PyInt (Z.of_nat (List.length facts)))).
Proof.
  unfold GroqClient.fact_check_claim.
  destruct (GroqClient.complete client c facts) as [text|e].
  - intros [= <-]. unfold GroqClient._parse_enhanced_response.
    destruct (GroqClient.parse_attempt text facts) as [r|e] eqn:Hp.
    + split; [eapply parse_attempt_well_shaped; exact Hp|].
      right. destruct (parse_attempt_Ok_inv _ _ _ Hp) as (d & _ & ->).
      rewrite dict_get_set_ne by discriminate. apply dict_get_set_eq.
    + split; [repeat constructor | right; reflexivity].
  - intros [= <-]. split; [repeat constructor | left; reflexivity].
Qed.

Lemma retrieve_default_length (r : EnhancedFactRetriever.t) (c : string) facts :
  EnhancedFactRetriever.retrieve_similar_facts r c None None = Ok facts ->
  (List.length facts <= 8)%nat.
Proof.
  intros Hr.
  destruct (search_total (EnhancedFactRetriever.vector_store r)
              (generate_embedding (EnhancedFactRetriever.embedding_generator r) c)
              (AppConfig.TOP_K_RESULTS * 2)) as [initial Hs].
  pose proof (retrieve_steps r c AppConfig.TOP_K_RESULTS
                AppConfig.SIMILARITY_THRESHOLD initial) as Hsteps.
  change (EnhancedFactRetriever.retrieve_similar_facts r c
            (Some AppConfig.TOP_K_RESULTS) (Some AppConfig.SIMILARITY_THRESHOLD))
    with (EnhancedFactRetriever.retrieve_similar_facts r c None None) in Hsteps.
  rewrite Hsteps in Hr; [|unfold AppConfig.TOP_K_RESULTS; lia | exact Hs].
  injection Hr as <-. rewrite length_take.
  change (Z.to_nat AppConfig.TOP_K_RESULTS) with 8%nat. lia.
Qed.

Lemma contains_get key (d : pydict) :
  dict_contains key d = true -> exists v, dict_get key d = Some v.
Proof.
  unfold dict_contains. destruct (dict_get key d) as [v|]; [|discriminate].
  intros _. exists v. reflexivity.
Qed.

(** X13. In [check_claim] the defaults of the aggregation are never used:
    verdict, confidence, reasoning and key evidence of the aggregate are
    always the fields that [fact_check_claim] returned for the first
    extracted claim, and [retrieved_facts_count] is that result's count, a
    number between 0 and 8 (the default [top_k]). *)
Theorem check_claim_reports_first_claim (self : FactChecker.t) (text : string) :
  exists first others facts primary agg n,
    @ClaimExtractor.extract_claims (claim_extractor self) text = first :: others /\
    EnhancedFactRetriever.retrieve_similar_facts (retriever self) first None None
    = Ok facts /\
    GroqClient.fact_check_claim (llm_client self) first facts = Ok primary /\
    check_claim self text = Ok agg /\
    Forall (fun field =>
              exists v, dict_get field primary = Some v /\
                        dict_get field agg = Some v)
           ["verdict"; "confidence"; "reasoning"; "key_evidence";
            "retrieved_facts_count"] /\
    dict_get "retrieved_facts_count" agg = Some (PyInt n) /\
    0 <= n <= 8.
Proof.
  destruct (check_claim_steps self text)
    as (first & others & facts & primary & rs & Hclaims & Hfacts & Hp & _ & _ & Hcheck).
  destruct (fact_check_claim_fields _ _ _ _ Hp) as [Hshape Hcount].
  pose proof (retrieve_default_length _ _ _ Hfacts) as Hlen.
  assert (Hn : exists n, dict_get "retrieved_facts_count" primary = Some (PyInt n)
                         /\ 0 <= n <= 8).
  { destruct Hcount as [Hc | Hc]; eexists; (split; [exact Hc | lia]). }
  destruct Hn as (n & Hn & Hbound).
  exists first, others, facts, primary. eexists. exists n.
  split; [exact Hclaims|]. split; [exact Hfacts|]. split; [exact Hp|].
  split; [rewrite Hcheck; reflexivity|].
  unfold well_shaped, GroqClient.required in Hshape.
  apply Forall_cons in Hshape as [Hv Hshape].
  apply Forall_cons in Hshape as [Hc Hshape].
  apply Forall_cons in Hshape as [Hr Hshape].
  apply Forall_cons in Hshape as [Hk _].
  apply contains_get in Hv as [v1 Hv], Hc as [v2 Hc], Hr as [v3 Hr], Hk as [v4 Hk].
  split; [|split; [|exact Hbound]].
  - repeat constructor; eexists; (split; [eassumption|]); simpl;
      unfold dict_get_default;
      first [rewrite Hv | rewrite Hc | rewrite Hr | rewrite Hk | rewrite Hn];
      reflexivity.
  - simpl. unfold dict_get_default. rewrite Hn. reflexivity.
Qed.

(** X14. A failing request for the first extracted claim decides the whole
    check, whatever the other claims yield: the aggregate is UNVERIFIABLE
    with confidence [very_low], its reasoning is ["Service error: "]
    followed by the error text, it has no key evidence, and it reports
    zero retrieved facts even when evidence had been retrieved. *)
Theorem check_claim_first_request_fails (self : FactChecker.t) (text : string)
    (first : string) (others : list string) (facts : list candidate) (e : exn) :
  @ClaimExtractor.extract_claims (claim_extractor self) text = first :: others ->
  EnhancedFactRetriever.retrieve_similar_facts (retriever self) first None None
  = Ok facts ->
  GroqClient.complete (llm_client self) first facts = Raise e ->
  exists agg,
    check_claim self text = Ok agg /\
    degraded "very_low" ("Service error: " +:+ exn_msg e) agg /\
    dict_get "retrieved_facts_count" agg = Some (PyInt 0) /\
    dict_get "claims_analyzed" agg
    = Some (PyList (map PyStr (first :: others))).
Proof.
  intros Hclaims Hfacts Hfail.
  destruct (check_claim_steps self text)
    as (first' & others' & facts' & primary & rs & Hclaims' & Hfacts' & Hp
        & _ & Hmap & Hcheck).
  rewrite Hclaims in Hclaims'. injection Hclaims' as <- <-.
  rewrite Hfacts in Hfacts'. injection Hfacts' as <-.
  unfold GroqClient.fact_check_claim in Hp. rewrite Hfail in Hp.
  injection Hp as <-.
  eexists. split; [rewrite Hcheck; reflexivity|].
  split; [repeat split|]. split; [reflexivity|].
  simpl. rewrite <- Hmap. rewrite map_map. reflexivity.
Qed.

(** X15. The aggregate that [check_claim] returns has exactly the nine
    keys of the aggregation, in their order; [original_text] is the input,
    [claims_analyzed] lists the extracted claims in their order,
    [verification_details] has one entry per extracted claim, and
    [entities_found] is the list of extracted entities. *)
Theorem check_claim_result_layout (self : FactChecker.t) (text : string) :
  exists agg details,
    check_claim self text = Ok agg /\
    agg.*1 = ["original_text"; "verdict"; "reasoning"; "confidence";
              "claims_analyzed"; "verification_details"; "entities_found";
              "key_evidence"; "retrieved_facts_count"] /\
    dict_get "original_text" agg = Some (PyStr text) /\
    dict_get "claims_analyzed" agg
    = Some (PyList (map PyStr
                      (@ClaimExtractor.extract_claims (claim_extractor self) text))) /\
    dict_get "verification_details" agg = Some (PyList details) /\
    List.length details
    = List.length (@ClaimExtractor.extract_claims (claim_extractor self) text) /\
    dict_get "entities_found" agg
    = Some (PyList (@ClaimExtractor.extract_entities (claim_extractor self) text)).
Proof.
  destruct (check_claim_steps self text)
    as (first & others & facts & primary & rs & Hclaims & _ & _ & _ & Hmap & Hcheck).
  eexists. eexists. split; [rewrite Hcheck; reflexivity|].
  rewrite Hclaims.
  split; [reflexivity|]. split; [reflexivity|].
  split; [simpl; rewrite <- Hmap, map_map; reflexivity|].
  split; [reflexivity|].
  split; [|reflexivity].
  simpl. rewrite length_map, <- Hmap, length_map. reflexivity.
Qed.

End WholeCheck.

(** ** Building the store from the table *)

Section Build.
Context `{FloatKernel} `{ReprKernel}.
Import Faiss BuildVectorStore.













End Build.

(** ** Extracted claims, the empty aggregate, the empty index *)

Section Extraction.
Context `{TextKernel}.

Lemma is_factual_claim_spec (c : string) :
  ClaimExtractor._is_factual_claim c = true ->
  (4 <= List.length (str_split c))%nat /\
  (exists pattern, pattern ∈ ClaimExtractor.factual_patterns /\
                   re_search pattern c = true) /\
  Forall (fun pattern => re_search pattern c = false)
         ClaimExtractor.non_factual_patterns.
Proof.
  unfold ClaimExtractor._is_factual_claim.
  rewrite !andb_true_iff, negb_true_iff. intros [[Hfact Hnon] Hlen].
  split; [apply Nat.leb_le, Hlen|]. split.
  - apply existsb_exists in Hfact as (pattern & Hin & Hp).
    exists pattern. split; [apply list_elem_of_In, Hin | exact Hp].
  - apply Forall_forall. intros pattern Hin.
    destruct (re_search pattern c) eqn:Hp; [|reflexivity].
    assert (Hex : existsb (fun p => re_search p c)
                          ClaimExtractor.non_factual_patterns = true).
    { apply existsb_exists. exists pattern.
      split; [apply list_elem_of_In, Hin | exact Hp]. }
    congruence.
Qed.

(** X18. [extract_claims] either falls back to the whole text, and then no
    stripped sentence is a factual claim, or returns the first three
    factual sentences in document order; each of them has at least four
    words, matches one of the five factual patterns and none of the three
    non-factual ones. *)
Theorem extract_claims_are_factual_sentences (text : string) :
  let sentences := map str_strip (nlp_sents text) in
  let claims := ClaimExtractor.extract_claims text in
  (claims = [text] /\
   Forall (fun s => ClaimExtractor._is_factual_claim s = false) sentences) \/
  (claims = firstn 3 (List.filter ClaimExtractor._is_factual_claim sentences) /\
   claims `sublist_of` sentences /\
   Forall (fun c =>
             (4 <= List.length (str_split c))%nat /\
             (exists pattern, pattern ∈ ClaimExtractor.factual_patterns /\
                              re_search pattern c = true) /\
             Forall (fun pattern => re_search pattern c = false)
                    ClaimExtractor.non_factual_patterns)
          claims).
Proof.
  intros sentences claims. unfold claims.
  rewrite (extract_claims_cases text). simpl. fold sentences.
  destruct (List.filter ClaimExtractor._is_factual_claim sentences)
    as [|c cs] eqn:Hf.
  - left. split; [reflexivity | apply filter_nil_Forall, Hf].
  - right. split; [reflexivity|].
    assert (Hsub : firstn 3 (c :: cs) `sublist_of` sentences).
    { etransitivity; [apply sublist_take|]. rewrite <- Hf. apply filter_sublist. }
    split; [exact Hsub|].
    apply Forall_forall. intros x Hx. apply is_factual_claim_spec.
    assert (Hin : x ∈ List.filter ClaimExtractor._is_factual_claim sentences).
    { rewrite Hf. eapply elem_of_sublist; [exact Hx | apply sublist_take]. }
    apply list_elem_of_In, List.filter_In in Hin as [_ Hp]. exact Hp.
Qed.

End Extraction.

Section EmptyCases.
Context `{FloatKernel} `{JsonKernel}.
Import FactChecker.

(** X19. Aggregation needs a first result: on the empty list it raises
    [IndexError] instead of returning the no-claims response, which only
    [check_claim] could produce; on any other list it succeeds, and its
    result has no [error] field. *)
Theorem aggregate_needs_a_result (text : string) (claim_results : list claim_result)
    (entities : list pyval) :
  (claim_results = [] ->
   exists msg,
     _aggregate_results text claim_results entities = Raise (Exn IndexError msg)) /\
  (claim_results <> [] ->
   exists agg,
     _aggregate_results text claim_results entities = Ok agg /\
     dict_get "error" agg = None /\
     agg <> _get_no_claims_response text).
Proof.
  split.
  - intros ->. eexists. reflexivity.
  - intros Hne. destruct claim_results as [|r rs]; [contradiction|].
    eexists. split; [reflexivity|]. split; [reflexivity|].
    intros Heq. apply (f_equal (dict_get "error")) in Heq. discriminate Heq.
Qed.

Lemma search_on_empty_store (store : VectorStore.t) (q : vector) (k : Z) :
  VectorStore.index store = None \/
  (exists ix, VectorStore.index store = Some ix /\ Faiss.ntotal ix = 0%nat) ->
  VectorStore.search store q k = Ok [].
Proof.
  unfold VectorStore.search. intros [-> | (ix & -> & ->)]; reflexivity.
Qed.

Lemma retrieve_on_empty_store (r : EnhancedFactRetriever.t) (c : string)
    (top_k : option Z) (threshold : option Q) :
  VectorStore.index (EnhancedFactRetriever.vector_store r) = None \/
  (exists ix, VectorStore.index (EnhancedFactRetriever.vector_store r) = Some ix /\
              Faiss.ntotal ix = 0%nat) ->
  EnhancedFactRetriever.retrieve_similar_facts r c top_k threshold = Ok [].
Proof.
  intros Hempty. unfold EnhancedFactRetriever.retrieve_similar_facts.
  rewrite (search_on_empty_store _ _ _ Hempty). simpl.
  rewrite slice_to_nil. reflexivity.
Qed.

(** X20. An index that was never created or holds no vector does not make
    the check fail: every extracted claim is retrieved with no evidence,
    the verifier is still called, with the empty evidence list, and the
    aggregate carries the verdict it returned for the first claim and a
    count of zero retrieved facts. *)
Theorem check_claim_on_empty_index (self : FactChecker.t) (text : string) :
  VectorStore.index (EnhancedFactRetriever.vector_store (retriever self)) = None \/
  (exists ix,
      VectorStore.index (EnhancedFactRetriever.vector_store (retriever self))
      = Some ix /\ Faiss.ntotal ix = 0%nat) ->
  exists first others primary agg,
    @ClaimExtractor.extract_claims (claim_extractor self) text = first :: others /\
    Forall (fun c =>
              EnhancedFactRetriever.retrieve_similar_facts (retriever self) c None None
              = Ok [])
           (first :: others) /\
    GroqClient.fact_check_claim (llm_client self) first [] = Ok primary /\
    check_claim self text = Ok agg /\
    dict_get "verdict" agg = dict_get "verdict" primary /\
    dict_get "retrieved_facts_count" agg = Some (PyInt 0).
Proof.
  intros Hempty.
  destruct (check_claim_steps self text)
    as (first & others & facts & primary & rs & Hclaims & Hfacts & Hp & _ & _ & Hcheck).
  rewrite (retrieve_on_empty_store _ _ _ _ Hempty) in Hfacts.
  injection Hfacts as <-.
  destruct (fact_check_claim_fields _ _ _ _ Hp) as [Hshape Hcount].
  unfold well_shaped, GroqClient.required in Hshape.
  apply Forall_cons in Hshape as [Hv _]. apply contains_get in Hv as [v Hv].
  exists first, others, primary. eexists.
  split; [exact Hclaims|]. split.
  { apply Forall_forall. intros c _. apply retrieve_on_empty_store, Hempty. }
  split; [exact Hp|]. split; [rewrite Hcheck; reflexivity|].
  simpl. unfold dict_get_default. rewrite Hv.
  split; [reflexivity|].
  destruct Hcount as [-> | ->]; reflexivity.
Qed.

End EmptyCases.

(** ** The further properties at concrete inputs *)

Lemma built_store_aligned_witness :
  Forall (fun b : ndarray * list pydict => ndarray_wf b.1) example_batches /\
  VectorStore.get_stats
    (@built Fixtures.axis_kernel "faiss_index" "metadata.json" 2 example_batches)
  = [("status", PyStr "loaded"); ("total_entries", PyInt 2);
     ("embedding_dim", PyInt 2); ("metadata_count", PyInt 2)].
Proof.
  assert (Hwf : Forall (fun b : ndarray * list pydict => ndarray_wf b.1)
                       example_batches)
    by (repeat constructor).
  split; [exact Hwf|].
  destruct (@built_store_aligned Fixtures.axis_kernel "faiss_index" "metadata.json"
              2 example_batches Hwf) as (ix & Hix & _ & _ & _ & Hstats).
  rewrite Hstats. vm_compute in Hix. injection Hix as <-. reflexivity.
Defined.

Lemma add_embeddings_appends_witness :
  VectorStore.index tie_store
    = Some {| Faiss.d := 2; Faiss.xb := [[1; 0]; [0; 1]; [1; 0]]%Q |} /\
  exists self',
    @VectorStore.add_embeddings Fixtures.axis_kernel tie_store
      {| shape1 := 2; rows := [[0; 5]]%Q |} [numpy_doc] = (self', Ok tt) /\
    VectorStore.metadata self' !! 0%nat = Some (Fixtures.doc "first" "A") /\
    List.length (VectorStore.metadata self') = 4%nat.
Proof.
  assert (H1 : VectorStore.index tie_store
               = Some {| Faiss.d := 2; Faiss.xb := [[1; 0]; [0; 1]; [1; 0]]%Q |})
    by reflexivity.
  split; [exact H1|].
  eexists. split; [reflexivity|].
  destruct (@add_embeddings_appends Fixtures.axis_kernel tie_store _ _
              {| shape1 := 2; rows := [[0; 5]]%Q |} [numpy_doc] H1 eq_refl)
    as (ix' & _ & _ & _ & Hlen & _ & Hold & _).
  split; [apply Hold; reflexivity | exact Hlen].
Defined.

Lemma clean_meta_converts_values_witness :
  NoDup numpy_doc.*1 /\
  VectorStore.clean_meta numpy_doc
  = [("content", PyStr "Railways. Steam locomotives."); ("pr_id", PyInt 7);
     ("score", PyFloat (1 # 2)); ("vector", PyList [PyFloat 1; PyFloat 0])].
Proof.
  assert (Hnd : NoDup numpy_doc.*1).
  { apply NoDup_ListNoDup. repeat constructor; simpl; intros Hin;
      repeat (destruct Hin as [Hin | Hin]; [discriminate Hin|]); exact Hin. }
  split; [exact Hnd|].
  destruct (clean_meta_converts_values numpy_doc Hnd) as (Heq & _).
  rewrite Heq. reflexivity.
Defined.

Lemma add_embeddings_then_save_succeeds_witness :
  json_serializable (VectorStore.metadata tie_store) = true /\
  cleanable_metadata [numpy_doc] = true /\
  exists self' fs',
    @VectorStore.add_embeddings Fixtures.axis_kernel tie_store
      {| shape1 := 2; rows := [[0; 5]]%Q |} [numpy_doc] = (self', Ok tt) /\
    VectorStore.save self' ∅ = (fs', Ok tt).
Proof.
  assert (H1 : json_serializable (VectorStore.metadata tie_store) = true)
    by reflexivity.
  assert (H2 : cleanable_metadata [numpy_doc] = true) by reflexivity.
  split; [exact H1|]. split; [exact H2|].
  destruct (@add_embeddings_then_save_succeeds Fixtures.axis_kernel tie_store
              (@VectorStore.add_embeddings Fixtures.axis_kernel tie_store
                 {| shape1 := 2; rows := [[0; 5]]%Q |} [numpy_doc]).1
              {| shape1 := 2; rows := [[0; 5]]%Q |} [numpy_doc] H1 H2 eq_refl)
    as (_ & Hsave).
  destruct (Hsave ∅) as (ix & _ & Heq).
  exists (@VectorStore.add_embeddings Fixtures.axis_kernel tie_store
            {| shape1 := 2; rows := [[0; 5]]%Q |} [numpy_doc]).1.
  eexists. split; [reflexivity | exact Heq].
Defined.


Lemma search_results_sound_witness :
  @VectorStore.search Fixtures.axis_kernel tie_store [1; 0]%Q 2
  = Ok [ {| similarity := 1; content := PyStr "first"; source := PyStr "A"; id := 0 |};
         {| similarity := 1; content := PyStr "third"; source := PyStr "A"; id := 2 |} ] /\
  NoDup [0; 2].
Proof.
  assert (Hs : @VectorStore.search Fixtures.axis_kernel tie_store [1; 0]%Q 2
               = Ok [ {| similarity := 1; content := PyStr "first";
                         source := PyStr "A"; id := 0 |};
                      {| similarity := 1; content := PyStr "third";
                         source := PyStr "A"; id := 2 |} ])
    by reflexivity.
  split; [exact Hs|].
  destruct (@search_results_sound Fixtures.axis_kernel tie_store [1; 0]%Q 2 _ Hs)
    as (_ & Hnd & _).
  exact Hnd.
Defined.

Lemma load_without_metadata_finds_nothing_witness :
  index_only_snapshot !! "faiss_index"
    = Some (FaissFile {| Faiss.d := 2; Faiss.xb := [[1; 0]; [0; 1]; [1; 0]]%Q |}) /\
  index_only_snapshot !! "metadata.json" = None /\
  exists self,
    VectorStore.load (VectorStore.__init__ "faiss_index" "metadata.json")
      index_only_snapshot = (self, Ok tt) /\
    @VectorStore.search Fixtures.axis_kernel self [1; 0]%Q 3 = Ok [].
Proof.
  assert (H1 : index_only_snapshot !! "faiss_index"
               = Some (FaissFile {| Faiss.d := 2;
                                    Faiss.xb := [[1; 0]; [0; 1]; [1; 0]]%Q |}))
    by reflexivity.
  assert (H2 : index_only_snapshot !! "metadata.json" = None) by reflexivity.
  split; [exact H1|]. split; [exact H2|].
  destruct (@load_without_metadata_finds_nothing Fixtures.axis_kernel
              "faiss_index" "metadata.json" index_only_snapshot _ H1 H2)
    as (self & Hload & _ & Hsearch).
  exists self. split; [exact Hload | apply Hsearch].
Defined.

Lemma enhanced_retriever_falls_back_or_filters_witness :
  1 <= 5 /\
  exists result,
    @EnhancedFactRetriever.retrieve_similar_facts Fixtures.axis_kernel
      tie_retriever "x" (Some 5) (Some (2 # 1)%Q) = Ok result /\
    result <> [].
Proof.
  assert (H1 : 1 <= 5) by (intros Hc; discriminate Hc).
  split; [exact H1|].
  destruct (@enhanced_retriever_falls_back_or_filters Fixtures.axis_kernel
              tie_retriever "x" 5 (2 # 1)%Q H1)
    as (initial & result & Hs & Hr & Hempty & _).
  exists result. split; [exact Hr|].
  intros Hnil. apply Hempty in Hnil. subst initial.
  vm_compute in Hs. discriminate Hs.
Defined.

Lemma enhanced_retriever_extends_original_witness :
  VectorStore.index tie_store
    = Some {| Faiss.d := 2; Faiss.xb := [[1; 0]; [0; 1]; [1; 0]]%Q |} /\
  List.length (VectorStore.metadata tie_store) = 3%nat /\
  Forall (fun m => dict_contains "content" m = true) (VectorStore.metadata tie_store) /\
  List.length (generate_embedding Fixtures.axis_embedder "x") = 2%nat /\
  1 <= 1 /\
  exists original,
    @FactRetriever.retrieve_similar_facts Fixtures.axis_kernel
      {| FactRetriever.embedding_generator := Fixtures.axis_embedder;
         FactRetriever.vector_store := tie_store |}
      "x" (Some 1) (Some AppConfig.SIMILARITY_THRESHOLD) = Ok original /\
    @EnhancedFactRetriever.retrieve_similar_facts Fixtures.axis_kernel
      tie_retriever "x" (Some 1) (Some AppConfig.SIMILARITY_THRESHOLD) = Ok original.
Proof.
  assert (H1 : VectorStore.index tie_store
               = Some {| Faiss.d := 2; Faiss.xb := [[1; 0]; [0; 1]; [1; 0]]%Q |})
    by reflexivity.
  assert (H2 : List.length (VectorStore.metadata tie_store) = 3%nat) by reflexivity.
  assert (H3 : Forall (fun m => dict_contains "content" m = true)
                      (VectorStore.metadata tie_store))
    by (repeat constructor).
  assert (H4 : List.length (generate_embedding Fixtures.axis_embedder "x") = 2%nat)
    by reflexivity.
  assert (H5 : 1 <= 1) by (intros Hc; discriminate Hc).
  repeat (split; [assumption|]).
  destruct (@enhanced_retriever_extends_original Fixtures.axis_kernel
              Fixtures.axis_embedder tie_store _ "x" 1
              AppConfig.SIMILARITY_THRESHOLD H1 H2 H3 H4 H5)
    as (original & enhanced & initial & Ho & He & _ & Hsame & _).
  exists original. split; [exact Ho|].
  rewrite <- (Hsame ltac:(intros Hnil; subst original; vm_compute in Ho;
                          discriminate Ho)).
  exact He.
Defined.

Lemma reply_parsed_as_its_json_object_witness :
  str_find "{" "Here is my answer: " = -1 /\
  str_rfind "}" " I hope this helps." = -1 /\
  str_slice "Here is my answer: {} I hope this helps."
            (str_find "{" "Here is my answer: {} I hope this helps.")
            (str_rfind "}" "Here is my answer: {} I hope this helps." + 1)
  = "{}".
Proof.
  assert (H1 : str_find "{" "Here is my answer: " = -1) by reflexivity.
  assert (H2 : str_rfind "}" " I hope this helps." = -1) by reflexivity.
  split; [exact H1|]. split; [exact H2|].
  destruct (@reply_parsed_as_its_json_object rejecting_json "Here is my answer: " ""
              " I hope this helps." [] H1 H2) as (Hslice & _).
  exact Hslice.
Defined.

Lemma parsed_reply_keeps_model_fields_witness :
  @GroqClient.parse_attempt empty_object_json "Answer: {}" []
  = Ok [("verdict", PyStr "unknown"); ("confidence", PyStr "unknown");
        ("reasoning", PyStr "unknown"); ("key_evidence", PyList []);
        ("semantic_matches",
          PyDict [("entity_matches", PyList []);
                  ("conceptual_alignment", PyStr "not_analyzed");
                  ("wording_differences", PyStr "not_analyzed")]);
        ("retrieved_facts_count", PyInt 0); ("retrieved_facts", PyList [])] /\
  dict_get "verdict" (@GroqClient._parse_enhanced_response empty_object_json
                        "Answer: {}" [])
  = Some (PyStr "unknown").
Proof.
  assert (H1 : @GroqClient.parse_attempt empty_object_json "Answer: {}" []
               = Ok [("verdict", PyStr "unknown"); ("confidence", PyStr "unknown");
                     ("reasoning", PyStr "unknown"); ("key_evidence", PyList []);
                     ("semantic_matches",
                       PyDict [("entity_matches", PyList []);
                               ("conceptual_alignment", PyStr "not_analyzed");
                               ("wording_differences", PyStr "not_analyzed")]);
                     ("retrieved_facts_count", PyInt 0);
                     ("retrieved_facts", PyList [])])
    by reflexivity.
  split; [exact H1|].
  destruct (@parsed_reply_keeps_model_fields empty_object_json "Answer: {}" [] _ H1)
    as (d & Hd & Hr & _ & Hmissing & _).
  rewrite Hr. apply Forall_cons in Hmissing as [Hverdict _].
  apply Hverdict. vm_compute in Hd. injection Hd as <-. reflexivity.
Defined.

Lemma check_claim_first_request_fails_witness :
  @ClaimExtractor.extract_claims plain_text "x marks the spot" = ["x marks the spot"] /\
  @EnhancedFactRetriever.retrieve_similar_facts Fixtures.axis_kernel
    tie_retriever "x marks the spot" None None
  = Ok [ {| similarity := 1; content := PyStr "first"; source := PyStr "A"; id := 0 |};
         {| similarity := 1; content := PyStr "third"; source := PyStr "A"; id := 2 |} ] /\
  exists agg,
    @FactChecker.check_claim Fixtures.axis_kernel rejecting_json plain_checker
      "x marks the spot" = Ok agg /\
    dict_get "confidence" agg = Some (PyStr "very_low") /\
    dict_get "retrieved_facts_count" agg = Some (PyInt 0).
Proof.
  assert (H1 : @ClaimExtractor.extract_claims plain_text "x marks the spot"
               = ["x marks the spot"]) by reflexivity.
  assert (H2 : @EnhancedFactRetriever.retrieve_similar_facts Fixtures.axis_kernel
                 tie_retriever "x marks the spot" None None
               = Ok [ {| similarity := 1; content := PyStr "first";
                         source := PyStr "A"; id := 0 |};
                      {| similarity := 1; content := PyStr "third";
                         source := PyStr "A"; id := 2 |} ])
    by reflexivity.
  split; [exact H1|]. split; [exact H2|].
  destruct (@check_claim_first_request_fails Fixtures.axis_kernel rejecting_json
              plain_checker "x marks the spot" _ _ _
              (Exn RequestException "Read timed out.") H1 H2 eq_refl)
    as (agg & Hcheck & (_ & Hconf & _) & Hcount & _).
  exists agg. split; [exact Hcheck|]. split; [exact Hconf | exact Hcount].
Defined.



Lemma aggregate_needs_a_result_witness :
  exists msg,
    FactChecker._aggregate_results "text" [] [] = Raise (Exn IndexError msg).
Proof.
  destruct (aggregate_needs_a_result "text" [] []) as (Hempty & _).
  apply Hempty. reflexivity.
Defined.

Lemma check_claim_on_empty_index_witness :
  VectorStore.index
    (EnhancedFactRetriever.vector_store (FactChecker.retriever unloaded_checker))
  = None /\
  exists agg,
    @FactChecker.check_claim Fixtures.axis_kernel rejecting_json unloaded_checker
      "x marks the spot" = Ok agg /\
    dict_get "retrieved_facts_count" agg = Some (PyInt 0).
Proof.
  assert (H1 : VectorStore.index
                 (EnhancedFactRetriever.vector_store
                    (FactChecker.retriever unloaded_checker)) = None)
    by reflexivity.
  split; [exact H1|].
  destruct (@check_claim_on_empty_index Fixtures.axis_kernel rejecting_json
              unloaded_checker "x marks the spot" (or_introl H1))
    as (first & others & primary & agg & _ & _ & _ & Hcheck & _ & Hcount).
  exists agg. split; [exact Hcheck | exact Hcount].
Defined.
